(** * Sim2Blend/markers.py: marker-trajectory import

    A shallow embedding of [load_trc], [addMarker] and [import_trc] of
    [Sim2Blend/markers.py], and the properties of the loader, of the
    resampling arithmetic, of the axis remapping and of the failure paths.

    Modelling conventions.
    - Python [str] values are [String.string] (8-bit characters).
    - Python [int] values are [Z].
    - numpy [float64] values (time stamps and coordinates) are held as the
      rationals [Q] they denote.  The source negates and copies coordinates,
      which is exact; the one place where it computes with floats, the rate
      of line 129, is modelled in binary64 arithmetic ([Float64] below:
      round to nearest, ties to even, with infinities and NaN), and [int()]
      rejects an infinity or a NaN as Python does.
    - An exception is a value of [exn]; code that can raise returns
      [result], and code that mutates the host scene threads the state and
      returns it together with the result, so the state reached when an
      exception escapes is observable.
    - The host ([bpy]), [numpy.loadtxt] and the file system are collaborators
      outside the source file; they are Section variables. *)

From Stdlib Require Import ZArith QArith Qround List String Ascii Bool Lia.
From Stdlib Require Import SpecFloat.
Import ListNotations.

Open Scope string_scope.
Open Scope Z_scope.

(** ** Exceptions and results *)

Inductive exn : Type :=
| FileNotFoundError
| UnboundLocalError
| IndexError
| KeyError
| ValueError
| ZeroDivisionError
| OverflowError.

Inductive result (A : Type) : Type :=
| Ok (a : A)
| Err (e : exn).

Arguments Ok {A} a.
Arguments Err {A} e.

Definition rbind {A B : Type} (r : result A) (f : A -> result B) : result B :=
  match r with
  | Ok a => f a
  | Err e => Err e
  end.

(** ** Python string operations used by the source *)

Module PyStr.

(** The three-tab separator ['\t\t\t'] of line 68. *)
Definition TAB : ascii := "009"%char.
Definition NL : ascii := "010"%char.
Definition tab3 : string := String TAB (String TAB (String TAB "")).

(** [s.endswith(suffix)]. *)
Definition endswith (s suffix : string) : bool :=
  let n := String.length s in
  let k := String.length suffix in
  (k <=? n)%nat && String.eqb (substring (n - k) k s) suffix.

(** [sub in s]: [sub] occurs in [s] as a contiguous substring. *)
Fixpoint contains (sub s : string) : bool :=
  prefix sub s ||
  match s with
  | EmptyString => false
  | String _ s' => contains sub s'
  end.

(** A slice bound [i] of [s[i:j]] clipped to [0 .. len], a negative bound
    counting from the end. *)
Definition clip (len i : Z) : Z :=
  if i <? 0 then Z.max 0 (len + i) else Z.min i len.

(** [s[start:stop]] (step 1). *)
Definition slice (s : string) (start stop : Z) : string :=
  let len := Z.of_nat (String.length s) in
  let lo := clip len start in
  let hi := clip len stop in
  substring (Z.to_nat lo) (Z.to_nat (hi - lo)) s.

(** [s.split(sep)] for a non-empty [sep]: the text is cut at the
    non-overlapping occurrences of [sep], scanned from the left; [skip]
    counts the characters of an occurrence still to be passed over and [cur]
    is the piece being collected. *)
Fixpoint split_go (sep s : string) (skip : nat) (cur : string) : list string :=
  match s with
  | EmptyString => [cur]
  | String c s' =>
      match skip with
      | S k => split_go sep s' k cur
      | O =>
          if prefix sep s
          then cur :: split_go sep s' (String.length sep - 1) EmptyString
          else split_go sep s' 0 (cur ++ String c EmptyString)
      end
  end.

Definition split (s sep : string) : list string := split_go sep s 0 EmptyString.

(** The lines a text stream yields, each with its line terminator kept
    (the last one may have none); [cur] is the line being collected. *)
Fixpoint lines_go (s : string) (cur : string) : list string :=
  match s with
  | EmptyString =>
      match cur with
      | EmptyString => []
      | _ => [cur]
      end
  | String c s' =>
      if Ascii.eqb c NL
      then (cur ++ String c EmptyString) :: lines_go s' EmptyString
      else lines_go s' (cur ++ String c EmptyString)
  end.

Definition lines (s : string) : list string := lines_go s EmptyString.

End PyStr.

(** ** numpy arrays *)

(** The result of [np.loadtxt]: a one-dimensional array (an empty file, a
    single data row or a single column) or a two-dimensional one, given by
    its rows. *)
Inductive ndarray : Type :=
| Arr1 (v : list Q)
| Arr2 (rows : list (list Q)).

Definition matrix : Type := list (list Q).

(** [a[:,1:]]: every row without its first entry; indexing a one-dimensional
    array with two indices raises [IndexError]. *)
Definition drop_first_column (a : ndarray) : result matrix :=
  match a with
  | Arr1 _ => Err IndexError
  | Arr2 rows => Ok (map (fun r => skipn 1 r) rows)
  end.

(** [a[n, c]] for non-negative [n] and [c]. *)
Definition at2 (a : matrix) (n c : Z) : result Q :=
  if (n <? 0) || (c <? 0) then Err IndexError
  else
    match nth_error a (Z.to_nat n) with
    | None => Err IndexError
    | Some row =>
        match nth_error row (Z.to_nat c) with
        | None => Err IndexError
        | Some x => Ok x
        end
    end.

(** ** The trajectory loader, [load_trc] *)

Section Loader.

(** [fs path] is the text a text-mode stream opened on [path] yields, if
    the file exists. *)
Variable fs : string -> option string.

(** [np_loadtxt text skiprows] is [np.loadtxt] on a file holding [text]. *)
Variable np_loadtxt : string -> nat -> result ndarray.

(** Lines 63-67: the loop [for i, line in enumerate(f)] over the lines still
    to be read.  In the iteration [i == 2] the loop variable holds line
    index 2 and [f.readline()] takes the next line from the same stream
    (the empty string at end of file); the iteration after it, if the stream
    has a line left, has [i > 2] and leaves the loop.  [hdr] is
    [trc_header], unbound until assigned. *)
Fixpoint header_loop (i : nat) (stream : list string) (hdr : option string)
  : option string :=
  match stream with
  | [] => hdr
  | _line :: rest =>
      if (i =? 2)%nat then
        match rest with
        | [] => Some (PyStr.slice EmptyString 12 (-3))
        | next :: rest' => header_loop (S i) rest' (Some (PyStr.slice next 12 (-3)))
        end
      else if (2 <? i)%nat then hdr
      else header_loop (S i) rest hdr
  end.

(** Lines 62-68. *)
Definition read_marker_names (text : string) : result (list string) :=
  match header_loop 0 (PyStr.lines text) None with
  | None => Err UnboundLocalError
  | Some trc_header => Ok (PyStr.split trc_header PyStr.tab3)
  end.

Definition load_trc (trc_path : string) : result (matrix * list string) :=
  match fs trc_path with
  | None => Err FileNotFoundError
  | Some text =>
      rbind (np_loadtxt text 5) (fun a =>
      rbind (drop_first_column a) (fun trc_data_np =>
      rbind (read_marker_names text) (fun markerNames =>
      Ok (trc_data_np, markerNames))))
  end.

End Loader.

(** What the specification's name-extraction rule reads: line index 2 of
    the file, sliced [12:-3] and split on three tabs. *)
Definition spec_trajectory_names (text : string) : option (list string) :=
  match nth_error (PyStr.lines text) 2 with
  | None => None
  | Some line2 => Some (PyStr.split (PyStr.slice line2 12 (-3)) PyStr.tab3)
  end.

(** ** The host scene *)

Definition vec3 : Type := (Q * Q * Q)%type.
Definition rgba : Type := (Q * Q * Q * Q)%type.

(** Lines 30-31. *)
Definition RADIUS : Q := 12 # 1000.
Definition COLOR : rgba := (0%Q, 1%Q, 0%Q, 8 # 10).

(** A marker object of the host: its name, its location, the colour of its
    material, the radius of its sphere mesh and the keyframes recorded on its
    location, in the order of the [keyframe_insert] calls. *)
Record marker_object : Type := mkObject {
  ob_name : string;
  ob_location : vec3;
  ob_color : rgba;
  ob_radius : Q;
  ob_keyframes : list (Z * vec3)
}.

Record collection : Type := mkCollection {
  coll_name : string;
  coll_objects : list marker_object
}.

(** The part of the host state the import touches: the frame rate of the
    scene and the collections linked to it, each with its objects in link
    order. *)
Record scene : Type := mkScene {
  render_fps : Z;
  scene_collections : list collection
}.

Definition set_render_fps (s : scene) (fps : Z) : scene :=
  {| render_fps := fps; scene_collections := scene_collections s |}.

Definition link_collection (s : scene) (c : collection) : scene :=
  {| render_fps := render_fps s; scene_collections := (scene_collections s ++ [c])%list |}.

Definition scene_object_names (s : scene) : list string :=
  flat_map (fun c => map ob_name (coll_objects c)) (scene_collections s).

(** [obj.location = loc]. *)
Definition set_location (o : marker_object) (loc : vec3) : marker_object :=
  {| ob_name := ob_name o; ob_location := loc; ob_color := ob_color o;
     ob_radius := ob_radius o; ob_keyframes := ob_keyframes o |}.

(** [obj.keyframe_insert('location', frame=frame)]: the current location is
    recorded at [frame]. *)
Definition keyframe_insert (o : marker_object) (frame : Z) : marker_object :=
  {| ob_name := ob_name o; ob_location := ob_location o; ob_color := ob_color o;
     ob_radius := ob_radius o;
     ob_keyframes := (ob_keyframes o ++ [(frame, ob_location o)])%list |}.

(** ** Code that mutates the marker collection

    [M A] is a computation on the objects of the marker collection that
    returns a value or raises; the objects reached are returned in both
    cases. *)

Definition M (A : Type) : Type :=
  list marker_object -> list marker_object * result A.

Definition ret {A : Type} (a : A) : M A := fun objs => (objs, Ok a).

Definition raise {A : Type} (e : exn) : M A := fun objs => (objs, Err e).

Definition bind {A B : Type} (m : M A) (f : A -> M B) : M B :=
  fun objs =>
    match m objs with
    | (objs', Ok a) => f a objs'
    | (objs', Err e) => (objs', Err e)
    end.

Definition lift {A : Type} (r : result A) : M A := fun objs => (objs, r).

Notation "x <- m ;; k" := (bind m (fun x => k))
  (at level 61, m at next level, right associativity).
Notation "m ;;; k" := (bind m (fun _ => k))
  (at level 61, right associativity).

(** A [for] loop: the body is run on each element in turn and the loop is
    left at the first exception. *)
Fixpoint for_each {X : Type} (xs : list X) (body : X -> M unit) : M unit :=
  match xs with
  | [] => ret tt
  | x :: xs' => body x ;;; for_each xs' body
  end.

(** [enumerate(xs)]. *)
Fixpoint enumerate_from {X : Type} (i : Z) (xs : list X) : list (Z * X) :=
  match xs with
  | [] => []
  | x :: xs' => (i, x) :: enumerate_from (i + 1) xs'
  end.

Definition enumerate {X : Type} (xs : list X) : list (Z * X) := enumerate_from 0 xs.

(** [range(start, stop, step)]: a zero step raises [ValueError]; otherwise
    the range has [range_length] items, item [j] being [start + j * step]. *)
Definition range_length (start stop step : Z) : nat :=
  if 0 <? step then
    if start <? stop then Z.to_nat ((stop - start - 1) / step + 1) else 0%nat
  else
    if stop <? start then Z.to_nat ((start - stop - 1) / (- step) + 1) else 0%nat.

Definition py_range (start stop step : Z) : result (list Z) :=
  if step =? 0 then Err ValueError
  else Ok (map (fun j => start + Z.of_nat j * step)
               (seq 0 (range_length start stop step))).

(** ** float64 arithmetic

    IEEE 754 binary64 as the standard library specifies it: [spec_float]
    with 53 bits of precision and exponents below 1024. *)

Module Float64.

Definition prec : Z := 53.
Definition emax : Z := 1024.

(** An integer as an unrounded mantissa with exponent 0. *)
Definition of_Z (n : Z) : spec_float :=
  match n with
  | Z0 => S754_zero false
  | Zpos p => S754_finite false p 0
  | Zneg p => S754_finite true p 0
  end.

(** The float64 nearest to a rational (ties to even, infinity beyond the
    range): the correctly rounded quotient of its numerator by its
    denominator.  It is the value itself on a rational that is a float64. *)
Definition round (q : Q) : spec_float :=
  SFdiv prec emax (of_Z (Qnum q)) (of_Z (Zpos (Qden q))).

(** [float(n)] for an [int]. *)
Definition of_int (n : Z) : spec_float := round (inject_Z n).

(** [x - y] and [x / y] on numpy float64 scalars: a division by zero gives
    an infinity or NaN (with a warning), not an exception. *)
Definition sub (x y : spec_float) : spec_float := SFsub prec emax x y.
Definition div (x y : spec_float) : spec_float := SFdiv prec emax x y.

(** [int(x)]: truncation toward zero; [ValueError] on NaN and
    [OverflowError] on an infinity. *)
Definition to_int (x : spec_float) : result Z :=
  match x with
  | S754_zero _ => Ok 0
  | S754_infinity _ => Err OverflowError
  | S754_nan => Err ValueError
  | S754_finite s m e =>
      let a := if 0 <=? e then Zpos m * 2 ^ e else Zpos m / 2 ^ (- e) in
      Ok (if s then - a else a)
  end.

(** The rational a finite float denotes. *)
Definition value (x : spec_float) : option Q :=
  match x with
  | S754_zero _ => Some 0%Q
  | S754_infinity _ => None
  | S754_nan => None
  | S754_finite s m e =>
      let a := if 0 <=? e then inject_Z (Zpos m * 2 ^ e)
               else (Zpos m # Z.to_pos (2 ^ (- e)))%Q in
      Some (if s then (- a)%Q else a)
  end.

End Float64.

(** [int(a / b)] for two [int]s: true division raises on a zero divisor.
    The quotient of two [int]s is correctly rounded, so its truncation is
    the integer quotient as long as [|a| < 2^53], which holds of the sample
    indices and of the rates of a recording. *)
Definition int_truediv (a b : Z) : result Z :=
  if b =? 0 then Err ZeroDivisionError else Ok (Z.quot a b).

(** [a[:,0]]. *)
Fixpoint column0 (a : matrix) : result (list Q) :=
  match a with
  | [] => Ok []
  | row :: rows =>
      match nth_error row 0 with
      | None => Err IndexError
      | Some x => rbind (column0 rows) (fun xs => Ok (x :: xs))
      end
  end.

(** Line 129: [int((len(times)-1) / (times[-1] - times[0]))], in float64:
    the difference of the two time stamps is rounded, then the quotient of
    the sample count by it.  A zero span gives [nan] (for a single sample)
    or [inf], and a quotient beyond the float64 range gives [inf]; [int]
    rejects them. *)
Definition intrinsic_fps (times : list Q) : result Z :=
  match times with
  | [] => Err IndexError
  | t0 :: _ =>
      let t_last := last times t0 in
      let n := Z.of_nat (List.length times) - 1 in
      let span := Float64.sub (Float64.round t_last) (Float64.round t0) in
      Float64.to_int (Float64.div (Float64.of_int n) span)
  end.

(** Lines 145-152: the raw triple of trajectory [i] at sample [n], remapped
    to the axis convention. *)
Definition sample_location (direction : string) (trc_data_np : matrix) (n i : Z)
  : result vec3 :=
  if String.eqb direction "zup" then
    rbind (at2 trc_data_np n (3 * i + 1)) (fun loc_x =>
    rbind (at2 trc_data_np n (3 * i + 2)) (fun loc_z =>
    rbind (at2 trc_data_np n (3 * i + 3)) (fun c =>
    let loc_y := (- c)%Q in
    Ok (loc_x, loc_y, loc_z))))
  else
    rbind (at2 trc_data_np n (3 * i + 1)) (fun loc_x =>
    rbind (at2 trc_data_np n (3 * i + 3)) (fun loc_y =>
    rbind (at2 trc_data_np n (3 * i + 2)) (fun loc_z =>
    Ok (loc_x, loc_y, loc_z)))).

(** The axis remapping alone, on a raw triple [(a, b, c)]. *)
Definition axis_remap (direction : string) (abc : vec3) : vec3 :=
  let '(a, b, c) := abc in
  if String.eqb direction "zup" then (a, (- c)%Q, b) else (a, c, b).

(** The inverse the specification gives for the ['zup'] remapping:
    [x' = x, y' = z, z' = -y]. *)
Definition spec_zup_inverse (xyz : vec3) : vec3 :=
  let '(x, y, z) := xyz in (x, z, (- y)%Q).

(** The first name of [names] that contains [m] (line 142); an empty
    selection indexed at [0] raises [IndexError]. *)
Definition first_containing (m : string) (names : list string) : result string :=
  match filter (fun coll_m => PyStr.contains m coll_m) names with
  | [] => Err IndexError
  | coll_m :: _ => Ok coll_m
  end.

(** Position of the first object called [name]. *)
Fixpoint index_of_name (name : string) (objs : list marker_object) : option nat :=
  match objs with
  | [] => None
  | o :: objs' =>
      if String.eqb (ob_name o) name then Some 0%nat
      else option_map S (index_of_name name objs')
  end.

(** [objs] with [f] applied to the object at position [r]. *)
Fixpoint update_at (r : nat) (f : marker_object -> marker_object)
  (objs : list marker_object) : list marker_object :=
  match objs, r with
  | [], _ => []
  | o :: objs', O => f o :: objs'
  | o :: objs', S r' => o :: update_at r' f objs'
  end.

(** [marker_collection.objects[name]]: a handle on the object. *)
Definition lookup_object (name : string) : M nat :=
  fun objs =>
    match index_of_name name objs with
    | None => (objs, Err KeyError)
    | Some r => (objs, Ok r)
    end.

Definition modify_object (r : nat) (f : marker_object -> marker_object) : M unit :=
  fun objs => (update_at r f objs, Ok tt).

Section Driver.

Variable fs : string -> option string.
Variable np_loadtxt : string -> nat -> result ndarray.

(** The name the host gives to a new object or collection asked for under
    [text], given the names already in use (the host makes names unique). *)
Variable host_name : list string -> string -> string.

(** The host importer of the binary format (lines 158-161). *)
Variable c3d_import : string -> scene -> scene * result unit.

(** Lines 73-105; [taken] are the object names in use outside the marker
    collection.  The new object is linked last. *)
Definition addMarker (taken : list string) (position : vec3) (text : string)
  (color : rgba) : M unit :=
  fun objs =>
    let sphere :=
      {| ob_name := host_name (taken ++ map ob_name objs)%list text;
         ob_location := position;
         ob_color := color;
         ob_radius := RADIUS;
         ob_keyframes := [] |} in
    ((objs ++ [sphere])%list, Ok tt).

(** Lines 144-155: the body of the loop over the retained samples. *)
Definition animate_sample (direction : string) (trc_data_np : matrix)
  (conv_fac_frame_rate i : Z) (m : string) (n : Z) : M unit :=
  loc <- lift (sample_location direction trc_data_np n i) ;;
  obj <- lookup_object m ;;
  modify_object obj (fun o => set_location o loc) ;;;
  q <- lift (int_truediv n conv_fac_frame_rate) ;;
  modify_object obj (fun o => keyframe_insert o (q + 1)).

(** Lines 141-155: the body of the loop over the trajectory names. *)
Definition animate_marker (direction : string) (trc_data_np : matrix)
  (len_times conv_fac_frame_rate : Z) (im : Z * string) : M unit :=
  let '(i, m) := im in
  fun objs =>
    let coll_marker_names := map ob_name objs in
    (m' <- lift (first_containing m coll_marker_names) ;;
     ns <- lift (py_range 0 len_times conv_fac_frame_rate) ;;
     for_each ns (animate_sample direction trc_data_np conv_fac_frame_rate i m'))
    objs.

(** Lines 136-155, on the new, empty marker collection. *)
Definition create_and_animate (taken : list string) (direction : string)
  (trc_data_np : matrix) (markerNames : list string)
  (len_times conv_fac_frame_rate : Z) : M unit :=
  for_each markerNames (fun markerName => addMarker taken (0, 0, 0)%Q markerName COLOR) ;;;
  for_each (enumerate markerNames)
    (animate_marker direction trc_data_np len_times conv_fac_frame_rate).

(** Lines 128-130: [len(times)], [fps] and [conv_fac_frame_rate]. *)
Definition frame_rates (trc_data_np : matrix) (target_framerate : Z)
  : result (Z * Z * Z) :=
  rbind (column0 trc_data_np) (fun times =>
  rbind (intrinsic_fps times) (fun fps =>
  rbind (int_truediv fps target_framerate) (fun conv_fac_frame_rate =>
  Ok (Z.of_nat (List.length times), fps, conv_fac_frame_rate)))).

(** Lines 121-161. *)
Definition import_trc (trc_path direction : string) (target_framerate : Z)
  (s : scene) : scene * result unit :=
  if PyStr.endswith trc_path ".trc" then
    match load_trc fs np_loadtxt trc_path with
    | Err e => (s, Err e)
    | Ok (trc_data_np, markerNames) =>
        let s1 := set_render_fps s target_framerate in
        match frame_rates trc_data_np target_framerate with
        | Err e => (s1, Err e)
        | Ok (len_times, _fps, conv_fac_frame_rate) =>
            let name := host_name (map coll_name (scene_collections s1)) "markers" in
            let '(objs, r) :=
              create_and_animate (scene_object_names s1) direction trc_data_np
                markerNames len_times conv_fac_frame_rate [] in
            (link_collection s1 (mkCollection name objs), r)
        end
    end
  else if PyStr.endswith trc_path ".c3d" then c3d_import trc_path s
  else (s, Ok tt).

End Driver.

(** ** Definitions used to state the properties *)

(** Position of the first object whose name contains [m]. *)
Fixpoint first_match (m : string) (objs : list marker_object) : option nat :=
  match objs with
  | [] => None
  | o :: objs' =>
      if PyStr.contains m (ob_name o) then Some 0%nat
      else option_map S (first_match m objs')
  end.

(** What one pass of the sample loop does to the object it animates: the
    location is set to [snd nl] and a keyframe is recorded for sample
    [fst nl]. *)
Definition record_sample (conv_fac_frame_rate : Z) (o : marker_object)
  (nl : Z * vec3) : marker_object :=
  keyframe_insert (set_location o (snd nl)) (Z.quot (fst nl) conv_fac_frame_rate + 1).

Definition apply_samples (conv_fac_frame_rate : Z) (nls : list (Z * vec3))
  (o : marker_object) : marker_object :=
  fold_left (record_sample conv_fac_frame_rate) nls o.

(** The locations of trajectory [i] at the samples [ns], if every read is in
    range. *)
Fixpoint sample_locations (direction : string) (trc_data_np : matrix) (i : Z)
  (ns : list Z) : result (list vec3) :=
  match ns with
  | [] => Ok []
  | n :: ns' =>
      rbind (sample_location direction trc_data_np n i) (fun loc =>
      rbind (sample_locations direction trc_data_np i ns') (fun locs =>
      Ok (loc :: locs)))
  end.

(** Number of keyframes recorded in a collection. *)
Fixpoint total_keyframes (objs : list marker_object) : nat :=
  match objs with
  | [] => 0%nat
  | o :: objs' => (List.length (ob_keyframes o) + total_keyframes objs')%nat
  end.

(** The number of samples [range(0, num_samples, k)] retains for a positive
    [k], as the specification counts them. *)
Definition retained (num_samples k : Z) : nat :=
  Z.to_nat ((num_samples - 1) / k + 1).

(** The retained sample indices: [0, k, 2k, ...]. *)
Definition retained_indices (num_samples k : Z) : list Z :=
  map (fun j => Z.of_nat j * k) (seq 0 (retained num_samples k)).

(** ** A concrete file, host and scene *)

Module Demo.

Definition t1 : string := String PyStr.TAB EmptyString.
Definition nl : string := String PyStr.NL EmptyString.

(** A two-marker trajectory file sampled at 2 Hz, in the layout OpenSim
    writes: the marker names are on line index 3, after ["Frame#\tTime\t"]. *)
Definition trc_text : string :=
  "PathFileType" ++ t1 ++ "4" ++ t1 ++ "(X/Y/Z)" ++ t1 ++ "demo.trc" ++ nl ++
  "DataRate" ++ t1 ++ "CameraRate" ++ t1 ++ "NumFrames" ++ t1 ++ "NumMarkers"
    ++ t1 ++ "Units" ++ t1 ++ "OrigDataRate" ++ t1 ++ "OrigDataStartFrame"
    ++ t1 ++ "OrigNumFrames" ++ nl ++
  "2" ++ t1 ++ "2" ++ t1 ++ "3" ++ t1 ++ "2" ++ t1 ++ "m" ++ t1 ++ "2"
    ++ t1 ++ "1" ++ t1 ++ "3" ++ nl ++
  "Frame#" ++ t1 ++ "Time" ++ t1 ++ "A" ++ t1 ++ t1 ++ t1 ++ "B" ++ t1 ++ t1 ++ nl ++
  t1 ++ t1 ++ "X1" ++ t1 ++ "Y1" ++ t1 ++ "Z1" ++ t1 ++ "X2" ++ t1 ++ "Y2"
    ++ t1 ++ "Z2" ++ nl ++
  "1" ++ t1 ++ "0.0" ++ t1 ++ "1" ++ t1 ++ "2" ++ t1 ++ "3" ++ t1 ++ "4" ++ t1
    ++ "5" ++ t1 ++ "6" ++ nl ++
  "2" ++ t1 ++ "0.5" ++ t1 ++ "7" ++ t1 ++ "8" ++ t1 ++ "9" ++ t1 ++ "10" ++ t1
    ++ "11" ++ t1 ++ "12" ++ nl ++
  "3" ++ t1 ++ "1.0" ++ t1 ++ "13" ++ t1 ++ "14" ++ t1 ++ "15" ++ t1 ++ "16"
    ++ t1 ++ "17" ++ t1 ++ "18" ++ nl.

(** The numbers of [trc_text] from line index 5 on: the time span is 1 s for
    3 samples, an intrinsic rate of 2 Hz. *)
Definition trc_rows : list (list Q) :=
  [ [1; 0; 1; 2; 3; 4; 5; 6];
    [2; 1 # 2; 7; 8; 9; 10; 11; 12];
    [3; 1; 13; 14; 15; 16; 17; 18] ]%Q.

(** 121 samples of one trajectory at 120 Hz: row [j] is
    [frame, time, x, y, z] with time [j / 120]. *)
Definition rows120 : list (list Q) :=
  map (fun j => [inject_Z (Z.of_nat j + 1); Z.of_nat j # 120;
                 inject_Z (Z.of_nat j); 2; 3]%Q)
      (seq 0 121).

(** The text of a one-marker file; only its header lines are read as text. *)
Definition trc_text120 : string :=
  "PathFileType" ++ nl ++ "DataRate" ++ nl ++ "120" ++ nl ++
  "Frame#" ++ t1 ++ "Time" ++ t1 ++ "Hip" ++ t1 ++ t1 ++ nl ++
  t1 ++ t1 ++ "X1" ++ t1 ++ "Y1" ++ t1 ++ "Z1" ++ nl.

Definition fs (path : string) : option string :=
  if String.eqb path "demo.trc" then Some trc_text
  else if String.eqb path "walk120.trc" then Some trc_text120
  else None.

Definition np_loadtxt (text : string) (skiprows : nat) : result ndarray :=
  if String.eqb text trc_text then Ok (Arr2 trc_rows)
  else if String.eqb text trc_text120 then Ok (Arr2 rows120)
  else Err ValueError.

(** A host that keeps a free name and appends [".001"] to a taken one. *)
Definition host_name (taken : list string) (text : string) : string :=
  if existsb (String.eqb text) taken then text ++ ".001" else text.

(** A host importer that leaves the scene as it is. *)
Definition c3d_import (path : string) (s : scene) : scene * result unit :=
  (s, Ok tt).

Definition scene0 : scene := {| render_fps := 24; scene_collections := [] |}.

(** A marker collection in which the name of the third trajectory, ["Hip"],
    occurs in the name of the first object. *)
Definition hip_objects : list marker_object :=
  map (fun name => mkObject name (0, 0, 0)%Q COLOR RADIUS [])
      ["LeftHip"; "Knee"; "Hip"].

(** Two samples of three trajectories, as the loader returns them
    ([time, x1, y1, z1, ..., x3, y3, z3]). *)
Definition hip_data : matrix :=
  [ [0; 1; 2; 3; 4; 5; 6; 7; 8; 9];
    [1; 11; 12; 13; 14; 15; 16; 17; 18; 19] ]%Q.

(** The float64 that the text [0.1] parses to: 3602879701896397 / 2^55,
    slightly above 1/10. *)
Definition tenth : Q := 3602879701896397 # 36028797018963968.

(** Two samples of one trajectory, recorded at 0.0 s and 0.1 s. *)
Definition tenth_data : matrix :=
  [ [0; 1; 2; 3]; [tenth; 4; 5; 6] ]%Q.

(** Two samples of one trajectory, 2^-1060 s apart (a subnormal float64). *)
Definition tiny_data : matrix :=
  [ [0; 1; 2; 3]; [1 # (2 ^ 1060); 4; 5; 6] ]%Q.

End Demo.

(** ** Definitions used to state properties of a whole import *)

(** No character of [s] is a tab. *)
Fixpoint tab_free (s : string) : bool :=
  match s with
  | EmptyString => true
  | String c s' => negb (Ascii.eqb c PyStr.TAB) && tab_free s'
  end.

(** The marker collection after lines 136-137, before any animation. *)
Definition created_markers (host_name : list string -> string -> string)
  (taken : list string) (markerNames : list string) : list marker_object :=
  fst (for_each markerNames
         (fun markerName => addMarker host_name taken (0, 0, 0)%Q markerName COLOR)
         []).

(** Every trajectory name of [ims] (with its index) resolves, by lines
    141-142, to the object at the position of its index. *)
Definition resolves_to_own (ims : list (Z * string)) (objs : list marker_object)
  : bool :=
  forallb (fun im : Z * string =>
             match first_match (snd im) objs with
             | Some r => Z.of_nat r =? fst im
             | None => false
             end)
          ims.

(** Every trajectory name of [names] is contained in the name of some
    object. *)
Definition all_resolve (names : list string) (objs : list marker_object) : bool :=
  forallb (fun m => match first_match m objs with Some _ => true | None => false end)
          names.

(** The locations of every trajectory of [ims] at the samples [ns]. *)
Fixpoint all_sample_locations (direction : string) (trc_data_np : matrix)
  (ns : list Z) (ims : list (Z * string)) : result (list (list vec3)) :=
  match ims with
  | [] => Ok []
  | im :: ims' =>
      rbind (sample_locations direction trc_data_np (fst im) ns) (fun locs =>
      rbind (all_sample_locations direction trc_data_np ns ims') (fun ls =>
      Ok (locs :: ls)))
  end.

(** Each object with the samples of its own trajectory recorded on it. *)
Fixpoint animate_all (conv_fac_frame_rate : Z) (ns : list Z)
  (objs : list marker_object) (all_locs : list (list vec3))
  : list marker_object :=
  match objs, all_locs with
  | o :: objs', locs :: ls =>
      apply_samples conv_fac_frame_rate (combine ns locs) o
      :: animate_all conv_fac_frame_rate ns objs' ls
  | _, _ => objs
  end.

(** [o'] is [o] with, at most, another location and more keyframes after
    the ones it had. *)
Definition grows (o o' : marker_object) : Prop :=
  ob_name o' = ob_name o
  /\ ob_color o' = ob_color o
  /\ ob_radius o' = ob_radius o
  /\ exists extra, ob_keyframes o' = (ob_keyframes o ++ extra)%list.

(** What an import gives an object to do: where it is and its keyframes. *)
Definition motion (o : marker_object) : vec3 * list (Z * vec3) :=
  (ob_location o, ob_keyframes o).

(** No name of [names] occurs inside a name of [earlier] or inside a name
    that comes before it in [names]. *)
Fixpoint no_name_in_earlier (earlier names : list string) : bool :=
  match names with
  | [] => true
  | m :: rest =>
      forallb (fun e => negb (PyStr.contains m e)) earlier
      && no_name_in_earlier (earlier ++ [m])%list rest
  end.

(** ** Two more files: time stamps that decrease, time stamps that repeat *)

Module Demo2.

Definition header (tag : string) : string :=
  "PathFileType" ++ Demo.t1 ++ tag ++ Demo.nl ++
  "DataRate" ++ Demo.nl ++ "2" ++ Demo.nl ++
  "Frame#" ++ Demo.t1 ++ "Time" ++ Demo.t1 ++ "A" ++ Demo.t1 ++ Demo.t1
    ++ Demo.nl ++
  Demo.t1 ++ Demo.t1 ++ "X1" ++ Demo.t1 ++ "Y1" ++ Demo.t1 ++ "Z1" ++ Demo.nl.

Definition reversed_text : string := header "reversed.trc".
Definition frozen_text : string := header "frozen.trc".

(** Rows [frame, time, x, y, z]. *)
Definition reversed_rows : list (list Q) :=
  [ [1; 1; 1; 2; 3]; [2; 1 # 2; 4; 5; 6]; [3; 0; 7; 8; 9] ]%Q.

Definition frozen_rows : list (list Q) :=
  [ [1; 0; 1; 2; 3]; [2; 0; 4; 5; 6] ]%Q.

Definition fs (path : string) : option string :=
  if String.eqb path "reversed.trc" then Some reversed_text
  else if String.eqb path "frozen.trc" then Some frozen_text
  else None.

Definition np_loadtxt (text : string) (skiprows : nat) : result ndarray :=
  if String.eqb text reversed_text then Ok (Arr2 reversed_rows)
  else if String.eqb text frozen_text then Ok (Arr2 frozen_rows)
  else Err ValueError.

End Demo2.

(** * Properties *)

(** ** Strings *)

Lemma length_append (a b : string) :
  String.length (a ++ b) = (String.length a + String.length b)%nat.
Proof.
  induction a as [|c a IH]; simpl; [reflexivity | now rewrite IH].
Qed.

Lemma substring_prefix (b c : string) :
  substring 0 (String.length b) (b ++ c) = b.
Proof.
  induction b as [|x b IH]; simpl.
  - now destruct c.
  - now rewrite IH.
Qed.

Lemma substring_middle (a b c : string) :
  substring (String.length a) (String.length b) (a ++ b ++ c) = b.
Proof.
  induction a as [|x a IH]; simpl.
  - apply substring_prefix.
  - exact IH.
Qed.

(** Slicing off a 12-character label and a 3-character tail leaves what is
    between them. *)
Lemma slice_12_m3 (label body tail : string) :
  String.length label = 12%nat ->
  String.length tail = 3%nat ->
  PyStr.slice (label ++ body ++ tail) 12 (-3) = body.
Proof.
  intros Hl Ht. unfold PyStr.slice, PyStr.clip.
  rewrite !length_append, Hl, Ht.
  set (n := String.length body).
  replace (12 <? 0) with false by reflexivity.
  replace (-3 <? 0) with true by reflexivity.
  replace (Z.min 12 (Z.of_nat (12 + (n + 3)))) with 12 by lia.
  replace (Z.max 0 (Z.of_nat (12 + (n + 3)) + -3)) with (Z.of_nat (12 + n)) by lia.
  replace (Z.to_nat 12) with (String.length label) by (rewrite Hl; reflexivity).
  replace (Z.to_nat (Z.of_nat (12 + n) - 12)) with n by lia.
  apply substring_middle.
Qed.

Lemma split_go_not_nil (sep s : string) (skip : nat) (cur : string) :
  PyStr.split_go sep s skip cur <> [].
Proof.
  revert skip cur.
  induction s as [|c s IH]; intros skip cur; cbn [PyStr.split_go].
  - discriminate.
  - destruct skip as [|k]; [|apply IH].
    destruct (prefix sep (String c s)); [discriminate | apply IH].
Qed.

(** ** The loader *)

(** With four lines or more in the stream, the header is cut from line
    index 3. *)
Lemma header_loop_line3 (l0 l1 l2 l3 : string) (rest : list string) :
  header_loop 0 (l0 :: l1 :: l2 :: l3 :: rest) None
  = Some (PyStr.slice l3 12 (-3)).
Proof.
  simpl. destruct rest; reflexivity.
Qed.

Lemma nth_error_3_shape {A : Type} (l : list A) (x : A) :
  nth_error l 3 = Some x ->
  exists a b c rest, l = a :: b :: c :: x :: rest.
Proof.
  destruct l as [|a [|b [|c [|d rest]]]]; simpl; try discriminate.
  intros [= ->]. now exists a, b, c, rest.
Qed.

Lemma read_marker_names_line3 (text l3 : string) :
  nth_error (PyStr.lines text) 3 = Some l3 ->
  read_marker_names text = Ok (PyStr.split (PyStr.slice l3 12 (-3)) PyStr.tab3).
Proof.
  intros H. apply nth_error_3_shape in H as (a & b & c & rest & E).
  unfold read_marker_names. now rewrite E, header_loop_line3.
Qed.

Lemma read_marker_names_not_nil (text : string) (names : list string) :
  read_marker_names text = Ok names -> names <> [].
Proof.
  unfold read_marker_names.
  destruct (header_loop 0 (PyStr.lines text) None); [|discriminate].
  intros [= <-]. apply split_go_not_nil.
Qed.

Lemma load_trc_names_not_nil fs np_loadtxt path data names :
  load_trc fs np_loadtxt path = Ok (data, names) -> names <> [].
Proof.
  unfold load_trc.
  destruct (fs path) as [text|]; [|discriminate].
  destruct (np_loadtxt text 5%nat) as [a|]; simpl; [|discriminate].
  destruct (drop_first_column a); simpl; [|discriminate].
  destruct (read_marker_names text) as [ns|] eqn:E; simpl; [|discriminate].
  intros [= _ <-]. exact (read_marker_names_not_nil _ _ E).
Qed.

(** C1 (as the code has it).  For a file of at least four lines that
    [np.loadtxt] parses to a two-dimensional array, the loader takes the
    trajectory names from line index 3, the line read by [f.readline()] once
    the iteration has consumed line index 2: its first 12 and last 3
    characters are dropped and the rest is split on three tabs.  A line
    index 3 made of a 12-character label, the names [A\t\t\tB] and a
    3-character tail yields the names [A] and [B]. *)
Theorem load_trc_names_from_line_3 :
  forall (fs : string -> option string)
         (np_loadtxt : string -> nat -> result ndarray)
         (path text l3 : string) (rows : list (list Q)),
    fs path = Some text ->
    np_loadtxt text 5%nat = Ok (Arr2 rows) ->
    nth_error (PyStr.lines text) 3 = Some l3 ->
    load_trc fs np_loadtxt path
    = Ok (map (fun r => skipn 1 r) rows,
          PyStr.split (PyStr.slice l3 12 (-3)) PyStr.tab3)
    /\ (forall label tail : string,
           String.length label = 12%nat ->
           String.length tail = 3%nat ->
           l3 = label ++ ("A" ++ PyStr.tab3 ++ "B") ++ tail ->
           PyStr.split (PyStr.slice l3 12 (-3)) PyStr.tab3 = ["A"; "B"]).
Proof.
  intros fs np_loadtxt path text l3 rows Hfs Hnp Hl3. split.
  - unfold load_trc. rewrite Hfs, Hnp. simpl.
    now rewrite (read_marker_names_line3 _ _ Hl3).
  - intros label tail Hl Ht ->. now rewrite slice_12_m3.
Qed.

Lemma load_trc_names_from_line_3_witness :
  load_trc Demo.fs Demo.np_loadtxt "demo.trc"
  = Ok (map (fun r => skipn 1 r) Demo.trc_rows, ["A"; "B"]).
Proof.
  destruct (load_trc_names_from_line_3 Demo.fs Demo.np_loadtxt "demo.trc"
              Demo.trc_text
              ("Frame#" ++ Demo.t1 ++ "Time" ++ Demo.t1 ++ "A" ++ Demo.t1
                 ++ Demo.t1 ++ Demo.t1 ++ "B" ++ Demo.t1 ++ Demo.t1 ++ Demo.nl)
              Demo.trc_rows)
    as [H _].
  - reflexivity.
  - reflexivity.
  - reflexivity.
  - exact H.
Defined.

(** On a file in the layout OpenSim writes, the loader returns the names of
    line index 3, and the rule "line index 2, sliced and split" gives
    something else. *)
Lemma load_trc_not_from_line_2 :
  exists data names spec_names,
    load_trc Demo.fs Demo.np_loadtxt "demo.trc" = Ok (data, names)
    /\ spec_trajectory_names Demo.trc_text = Some spec_names
    /\ names = ["A"; "B"]
    /\ spec_names = ["1"]
    /\ names <> spec_names.
Proof.
  exists (map (fun r => skipn 1 r) Demo.trc_rows), ["A"; "B"], ["1"].
  repeat split; try reflexivity. discriminate.
Qed.

(** ** Dispatch on the extension *)

(** C2 (as the code has it).  For a path that ends in neither ['.trc'] nor
    ['.c3d'], neither branch of the dispatch is taken: the import returns
    normally and leaves the scene as it was. *)
Theorem import_trc_other_extension :
  forall (fs : string -> option string)
         (np_loadtxt : string -> nat -> result ndarray)
         (host_name : list string -> string -> string)
         (c3d_import : string -> scene -> scene * result unit)
         (trc_path direction : string) (target_framerate : Z) (s : scene),
    PyStr.endswith trc_path ".trc" = false ->
    PyStr.endswith trc_path ".c3d" = false ->
    import_trc fs np_loadtxt host_name c3d_import trc_path direction
      target_framerate s
    = (s, Ok tt).
Proof.
  intros fs np_loadtxt host_name c3d_import trc_path direction target s H1 H2.
  unfold import_trc. now rewrite H1, H2.
Qed.

Lemma import_trc_other_extension_witness :
  import_trc Demo.fs Demo.np_loadtxt Demo.host_name Demo.c3d_import
    "walk.csv" "zup" 30 Demo.scene0
  = (Demo.scene0, Ok tt).
Proof.
  apply import_trc_other_extension; reflexivity.
Defined.

(** A path with a third extension: no exception is raised. *)
Lemma import_trc_other_extension_no_error :
  PyStr.endswith "walk.csv" ".trc" = false
  /\ PyStr.endswith "walk.csv" ".c3d" = false
  /\ ~ (exists e : exn,
           snd (import_trc Demo.fs Demo.np_loadtxt Demo.host_name
                  Demo.c3d_import "walk.csv" "zup" 30 Demo.scene0)
           = Err e).
Proof.
  repeat split. intros [e H]. discriminate H.
Qed.

(** ** Axis remapping *)

Lemma Qopp_involutive (q : Q) : (- - q)%Q = q.
Proof.
  destruct q as [n d]. unfold Qopp. simpl. now rewrite Z.opp_involutive.
Qed.

(** The triple [sample_location] returns is the remapped raw triple. *)
Lemma sample_location_remap (direction : string) (data : matrix) (n i : Z)
  (a b c : Q) :
  at2 data n (3 * i + 1) = Ok a ->
  at2 data n (3 * i + 2) = Ok b ->
  at2 data n (3 * i + 3) = Ok c ->
  sample_location direction data n i = Ok (axis_remap direction (a, b, c)).
Proof.
  intros Ha Hb Hc. unfold sample_location, axis_remap.
  destruct (String.eqb direction "zup"); rewrite Ha, Hb, Hc; reflexivity.
Qed.

(** C8.  For every raw triple [(a, b, c)] held by columns [3i+1 .. 3i+3] of
    a sample, the location that lines 145-148 compute for it in the ['zup']
    convention is mapped back to [(a, b, c)] exactly by
    [x' = x, y' = z, z' = -y]. *)
Theorem zup_remap_inverse :
  forall (data : matrix) (n i : Z) (a b c : Q),
    at2 data n (3 * i + 1) = Ok a ->
    at2 data n (3 * i + 2) = Ok b ->
    at2 data n (3 * i + 3) = Ok c ->
    exists loc : vec3,
      sample_location "zup" data n i = Ok loc
      /\ spec_zup_inverse loc = (a, b, c).
Proof.
  intros data n i a b c Ha Hb Hc.
  exists (a, (- c)%Q, b). split.
  - unfold sample_location. cbn [String.eqb Ascii.eqb Bool.eqb].
    rewrite Ha, Hb, Hc. reflexivity.
  - unfold spec_zup_inverse. now rewrite Qopp_involutive.
Qed.

Lemma zup_remap_inverse_witness :
  exists loc : vec3,
    sample_location "zup" Demo.hip_data 1 2 = Ok loc
    /\ spec_zup_inverse loc = (17, 18, 19)%Q.
Proof.
  apply (zup_remap_inverse Demo.hip_data 1 2 17 18 19); reflexivity.
Defined.

(** ** Rate arithmetic *)

Lemma Qfloor_div_Z (a b : Z) :
  0 < b -> Qfloor (inject_Z a / inject_Z b) = a / b.
Proof.
  intros Hb. destruct b as [|p|p]; try lia.
  unfold Qdiv, Qinv, Qmult, inject_Z, Qfloor. simpl.
  now rewrite Z.mul_1_r.
Qed.

Lemma quot_zero_small (a b : Z) : - b < a < b -> Z.quot a b = 0.
Proof.
  intros H. destruct (Z.le_gt_cases 0 a) as [Ha|Ha].
  - apply Z.quot_small; lia.
  - replace a with (- (- a)) by lia.
    rewrite Z.quot_opp_l by lia. rewrite Z.quot_small by lia. reflexivity.
Qed.

Lemma column0_length (data : matrix) (times : list Q) :
  column0 data = Ok times -> List.length times = List.length data.
Proof.
  revert times. induction data as [|row rows IH]; intros times; cbn [column0].
  - now intros [= <-].
  - destruct (nth_error row 0); [|discriminate].
    destruct (column0 rows) as [xs|]; simpl; [|discriminate].
    intros [= <-]. simpl. now rewrite (IH xs).
Qed.

Lemma last_cons_default {A : Type} (l : list A) (x d d' : A) :
  last (x :: l) d = last (x :: l) d'.
Proof.
  revert x. induction l as [|y l IH]; intros x.
  - reflexivity.
  - change (last (y :: l) d = last (y :: l) d'). apply IH.
Qed.

(** [int()] of a finite non-negative float64 is the floor of its value. *)
Lemma to_int_floor (x : spec_float) (v : Q) :
  Float64.value x = Some v ->
  (0 <= v)%Q ->
  Float64.to_int x = Ok (Qfloor v) /\ 0 <= Qfloor v.
Proof.
  intros Hv Hpos.
  assert (Hfl : 0 <= Qfloor v).
  { change 0 with (Qfloor 0). apply Qfloor_resp_le. exact Hpos. }
  split; [|exact Hfl].
  destruct x as [s| s | |s m e]; unfold Float64.value, Float64.to_int in *;
    try discriminate.
  - injection Hv as <-. reflexivity.
  - remember (Zpos m * 2 ^ e) as a eqn:Ea.
    remember (2 ^ (- e)) as b eqn:Eb.
    injection Hv as <-.
    destruct (0 <=? e) eqn:Ee.
    + assert (Hp : 0 < a).
      { subst a. apply Z.leb_le in Ee. apply Z.mul_pos_pos; [lia|].
        apply Z.pow_pos_nonneg; lia. }
      destruct s.
      * exfalso. unfold Qle, Qopp, inject_Z in Hpos.
        cbn [Qnum Qden] in Hpos. lia.
      * now rewrite Qfloor_Z.
    + apply Z.leb_gt in Ee.
      assert (Hp : 0 < b) by (subst b; apply Z.pow_pos_nonneg; lia).
      destruct s.
      * exfalso. unfold Qle, Qopp in Hpos. cbn [Qnum Qden] in Hpos. lia.
      * unfold Qfloor. now rewrite Z2Pos.id by exact Hp.
Qed.

Lemma frame_rates_inv (data : matrix) (target len fps k : Z) :
  frame_rates data target = Ok (len, fps, k) ->
  exists times,
    column0 data = Ok times
    /\ len = Z.of_nat (List.length times)
    /\ intrinsic_fps times = Ok fps
    /\ int_truediv fps target = Ok k.
Proof.
  unfold frame_rates.
  destruct (column0 data) as [times|]; simpl; [|discriminate].
  destruct (intrinsic_fps times) as [f|] eqn:Ef; simpl; [|discriminate].
  destruct (int_truediv f target) as [c|] eqn:Ec; simpl; [|discriminate].
  intros [= <- <- <-]. exists times. repeat split; assumption.
Qed.

(** C4 (as the code has it).  The intrinsic rate is computed from column 0
    alone, in float64: the difference of the last and the first time stamp
    is rounded, and so is the quotient [q] of [num_samples - 1] by it.
    Whenever [q] is finite, not negative and below 2^53, and the target rate
    is positive, [fps = floor(q)] and [k = floor(fps / target_framerate)]. *)
Theorem frame_rates_floor :
  forall (data : matrix) (times : list Q) (target_framerate : Z) (q : Q),
    column0 data = Ok times ->
    let num_samples := Z.of_nat (List.length data) in
    Float64.value
      (Float64.div (Float64.of_int (num_samples - 1))
         (Float64.sub (Float64.round (last times 0%Q))
                      (Float64.round (hd 0%Q times))))
    = Some q ->
    (0 <= q < inject_Z (2 ^ 53))%Q ->
    0 < target_framerate ->
    let fps := Qfloor q in
    let k := Qfloor (inject_Z fps / inject_Z target_framerate) in
    frame_rates data target_framerate = Ok (num_samples, fps, k).
Proof.
  intros data times target q Hcol. cbv zeta.
  pose proof (column0_length _ _ Hcol) as El. rewrite <- El.
  intros Hq [Hpos _] Htarget.
  destruct times as [|t0 rest]; [discriminate Hq|].
  rewrite (last_cons_default rest t0 0%Q t0) in Hq. cbn [hd] in Hq.
  destruct (to_int_floor _ _ Hq Hpos) as [Hint Hnonneg].
  unfold frame_rates. rewrite Hcol. cbn [rbind].
  unfold intrinsic_fps. rewrite Hint. cbn [rbind].
  unfold int_truediv.
  replace (target =? 0) with false by (symmetry; apply Z.eqb_neq; lia).
  cbn [rbind]. rewrite Qfloor_div_Z by exact Htarget.
  rewrite Z.quot_div_nonneg by (exact Hnonneg || exact Htarget).
  reflexivity.
Qed.

Lemma frame_rates_floor_witness :
  frame_rates (map (fun r => skipn 1 r) Demo.trc_rows) 1 = Ok (3, 2, 2).
Proof.
  apply (frame_rates_floor (map (fun r => skipn 1 r) Demo.trc_rows)
           [0; 1 # 2; 1]%Q 1 (4503599627370496 # 2251799813685248)%Q).
  - reflexivity.
  - reflexivity.
  - split; [unfold Qle | unfold Qlt]; simpl; lia.
  - lia.
Defined.

(** Two samples at 0.0 s and 0.1 s, imported at 10 frames per second: the
    time column increases and the exact quotient [1 / (t1 - t0)] is just
    below 10, so its floor is 9 and the floor of [9 / 10] is 0; the code
    rounds the quotient to 10.0 and computes the rate 10 and the factor 1.
    Two samples 2^-1060 s apart: the exact quotient is 2^1060, the float64
    quotient is infinite and the computation raises [OverflowError]. *)
Lemma frame_rates_not_exact_floor :
  column0 Demo.tenth_data = Ok [0%Q; Demo.tenth]
  /\ (2 <= List.length Demo.tenth_data)%nat
  /\ (0 < Demo.tenth)%Q
  /\ Qfloor (inject_Z (2 - 1) / (Demo.tenth - 0)) = 9
  /\ Qfloor (inject_Z 9 / inject_Z 10) = 0
  /\ frame_rates Demo.tenth_data 10 = Ok (2, 10, 1)
  /\ frame_rates Demo.tenth_data 10
     <> Ok (2, Qfloor (inject_Z (2 - 1) / (Demo.tenth - 0)),
            Qfloor (inject_Z (Qfloor (inject_Z (2 - 1) / (Demo.tenth - 0)))
                    / inject_Z 10))
  /\ column0 Demo.tiny_data = Ok [0%Q; (1 # (2 ^ 1060))%Q]
  /\ (2 <= List.length Demo.tiny_data)%nat
  /\ (0 < 1 # (2 ^ 1060))%Q
  /\ frame_rates Demo.tiny_data 10 = Err OverflowError.
Proof.
  repeat split; try reflexivity; try discriminate; simpl; lia.
Qed.

(** The time stamp [Demo.tenth] is a float64: rounding leaves it as it is. *)
Example tenth_is_float64 :
  exists v : Q,
    Float64.value (Float64.round Demo.tenth) = Some v /\ (v == Demo.tenth)%Q.
Proof.
  exists (7205759403792794 # 72057594037927936)%Q.
  split; reflexivity.
Qed.

(** Eight samples recorded at 100 Hz, the last one at 0.07 s, which in
    float64 is 5044031582654956 / 2^56: the quotient [7 / 0.07] rounds to
    99.99999999999999 and the rate is 99.  Only the first and the last time
    stamp are read. *)
Example intrinsic_fps_8_samples_100_hz :
  intrinsic_fps
    [0; 1 # 100; 2 # 100; 3 # 100; 4 # 100; 5 # 100; 6 # 100;
     5044031582654956 # 72057594037927936]%Q
  = Ok 99.
Proof. reflexivity. Qed.

Lemma py_range_step_1 (len : Z) :
  py_range 0 len 1 = Ok (map Z.of_nat (seq 0 (Z.to_nat len))).
Proof.
  unfold py_range, range_length. simpl (1 =? 0). simpl (0 <? 1). cbv iota.
  f_equal. rewrite Z.sub_0_r, Z.div_1_r.
  destruct (0 <? len) eqn:E.
  - replace (len - 1 + 1) with len by lia.
    apply map_ext. intros j. lia.
  - apply Z.ltb_ge in E. replace (Z.to_nat len) with 0%nat by lia. reflexivity.
Qed.

(** C3 (as the code has it).  When the target rate is strictly above the
    intrinsic rate (and the intrinsic rate above its opposite), the
    decimation factor is 0 and building the range of samples raises
    [ValueError]; when the two rates are equal the factor is 1 and the range
    holds every sample. *)
Theorem conv_fac_above_and_at_rate :
  forall (data : matrix) (target_framerate len fps k : Z),
    frame_rates data target_framerate = Ok (len, fps, k) ->
    (- target_framerate < fps < target_framerate ->
       k = 0 /\ py_range 0 len k = Err ValueError)
    /\ (fps = target_framerate ->
          k = 1 /\ py_range 0 len k = Ok (map Z.of_nat (seq 0 (Z.to_nat len)))).
Proof.
  intros data target len fps k H.
  apply frame_rates_inv in H as (times & _ & _ & _ & Hk).
  unfold int_truediv in Hk.
  destruct (target =? 0) eqn:E; [discriminate|].
  apply Z.eqb_neq in E. injection Hk as <-. split.
  - intros Hsmall. rewrite (quot_zero_small _ _ Hsmall). now split.
  - intros ->. rewrite Z.quot_same by exact E. split; [reflexivity|].
    apply py_range_step_1.
Qed.

Lemma conv_fac_above_and_at_rate_witness :
  py_range 0 3 0 = Err ValueError
  /\ py_range 0 3 1 = Ok [0; 1; 2].
Proof.
  split.
  - refine (proj2 (proj1 (conv_fac_above_and_at_rate
              (map (fun r => skipn 1 r) Demo.trc_rows) 30 3 2 0 _) _)).
    + reflexivity.
    + lia.
  - refine (proj2 (proj2 (conv_fac_above_and_at_rate
              (map (fun r => skipn 1 r) Demo.trc_rows) 2 3 2 1 _) _)).
    + reflexivity.
    + reflexivity.
Defined.

(** A target rate equal to the intrinsic rate: the decimation factor is 1,
    not 0, and the range of samples is built without a fault. *)
Lemma conv_fac_not_zero_at_equal_rates :
  frame_rates (map (fun r => skipn 1 r) Demo.trc_rows) 2 = Ok (3, 2, 1)
  /\ 2 >= 2
  /\ 1 <> 0
  /\ py_range 0 3 1 = Ok [0; 1; 2].
Proof.
  repeat split; try reflexivity; lia.
Qed.

(** ** Updating an object of the collection *)

Lemma update_at_id (r : nat) (objs : list marker_object) :
  update_at r (fun o => o) objs = objs.
Proof.
  revert r. induction objs as [|o objs IH]; intros [|r]; simpl;
    try reflexivity. now rewrite IH.
Qed.

Lemma update_at_compose (r : nat) (f g : marker_object -> marker_object)
  (objs : list marker_object) :
  update_at r g (update_at r f objs) = update_at r (fun o => g (f o)) objs.
Proof.
  revert r. induction objs as [|o objs IH]; intros [|r]; simpl;
    try reflexivity. now rewrite IH.
Qed.

Lemma update_at_hit (r : nat) (f : marker_object -> marker_object)
  (objs : list marker_object) (o : marker_object) :
  nth_error objs r = Some o ->
  nth_error (update_at r f objs) r = Some (f o).
Proof.
  revert r. induction objs as [|x objs IH]; intros [|r]; simpl;
    try discriminate.
  - now intros [= ->].
  - apply IH.
Qed.

Lemma update_at_miss (r j : nat) (f : marker_object -> marker_object)
  (objs : list marker_object) :
  j <> r ->
  nth_error (update_at r f objs) j = nth_error objs j.
Proof.
  revert r j. induction objs as [|x objs IH]; intros [|r] [|j] H; simpl;
    try reflexivity; try congruence.
  apply IH. congruence.
Qed.

Lemma update_at_length (r : nat) (f : marker_object -> marker_object)
  (objs : list marker_object) :
  List.length (update_at r f objs) = List.length objs.
Proof.
  revert r. induction objs as [|o objs IH]; intros [|r]; simpl;
    try reflexivity. now rewrite IH.
Qed.

Lemma index_of_name_update_at (name : string) (r : nat)
  (f : marker_object -> marker_object) (objs : list marker_object) :
  (forall o, ob_name (f o) = ob_name o) ->
  index_of_name name (update_at r f objs) = index_of_name name objs.
Proof.
  intros Hf. revert r. induction objs as [|o objs IH]; intros [|r]; simpl;
    try reflexivity.
  - now rewrite Hf.
  - now rewrite IH.
Qed.

Lemma total_keyframes_update_at (r : nat) (f : marker_object -> marker_object)
  (objs : list marker_object) (o : marker_object) (extra : nat) :
  nth_error objs r = Some o ->
  List.length (ob_keyframes (f o)) = (List.length (ob_keyframes o) + extra)%nat ->
  total_keyframes (update_at r f objs) = (total_keyframes objs + extra)%nat.
Proof.
  revert r. induction objs as [|x objs IH]; intros [|r]; simpl;
    try discriminate.
  - intros [= ->] H. rewrite H. lia.
  - intros Hn H. rewrite (IH r Hn H). lia.
Qed.

(** ** What the sample loop records *)

Lemma record_sample_name (k : Z) (o : marker_object) (nl : Z * vec3) :
  ob_name (record_sample k o nl) = ob_name o.
Proof. reflexivity. Qed.

Lemma apply_samples_name (k : Z) (nls : list (Z * vec3)) (o : marker_object) :
  ob_name (apply_samples k nls o) = ob_name o.
Proof.
  revert o. induction nls as [|nl nls IH]; intros o; [reflexivity|].
  change (ob_name (apply_samples k nls (record_sample k o nl)) = ob_name o).
  now rewrite IH.
Qed.

Lemma apply_samples_keyframes (k : Z) (nls : list (Z * vec3))
  (o : marker_object) :
  ob_keyframes (apply_samples k nls o)
  = (ob_keyframes o
     ++ map (fun nl => (Z.quot (fst nl) k + 1, snd nl)) nls)%list.
Proof.
  revert o. induction nls as [|nl nls IH]; intros o.
  - simpl. now rewrite app_nil_r.
  - change (apply_samples k (nl :: nls) o)
      with (apply_samples k nls (record_sample k o nl)).
    rewrite IH. simpl. now rewrite <- app_assoc.
Qed.

Lemma sample_locations_length (direction : string) (data : matrix) (i : Z)
  (ns : list Z) (locs : list vec3) :
  sample_locations direction data i ns = Ok locs ->
  List.length locs = List.length ns.
Proof.
  revert locs. induction ns as [|n ns IH]; intros locs; cbn [sample_locations].
  - now intros [= <-].
  - destruct (sample_location direction data n i); cbn [rbind]; [|discriminate].
    destruct (sample_locations direction data i ns) as [ls|]; cbn [rbind];
      [|discriminate].
    intros [= <-]. simpl. now rewrite (IH ls).
Qed.

(** One pass of the sample loop. *)
Lemma animate_sample_run (direction : string) (data : matrix) (k i : Z)
  (name : string) (n : Z) (objs : list marker_object) (loc : vec3) (r : nat) :
  sample_location direction data n i = Ok loc ->
  index_of_name name objs = Some r ->
  k <> 0 ->
  animate_sample direction data k i name n objs
  = (update_at r (fun o => record_sample k o (n, loc)) objs, Ok tt).
Proof.
  intros Hloc Hidx Hk.
  unfold animate_sample, bind, lift, lookup_object, modify_object, int_truediv.
  rewrite Hloc, Hidx.
  replace (k =? 0) with false by (symmetry; apply Z.eqb_neq; exact Hk).
  now rewrite update_at_compose.
Qed.

(** The whole sample loop on the object called [name]. *)
Lemma sample_loop_run (direction : string) (data : matrix) (k i : Z)
  (name : string) (r : nat) :
  k <> 0 ->
  forall (ns : list Z) (locs : list vec3) (objs : list marker_object),
    sample_locations direction data i ns = Ok locs ->
    index_of_name name objs = Some r ->
    for_each ns (animate_sample direction data k i name) objs
    = (update_at r (apply_samples k (combine ns locs)) objs, Ok tt).
Proof.
  intros Hk. induction ns as [|n ns IH]; intros locs objs Hlocs Hidx.
  - change (apply_samples k (combine [] locs))
      with (fun o : marker_object => o).
    now rewrite update_at_id.
  - cbn [sample_locations] in Hlocs.
    destruct (sample_location direction data n i) as [loc|] eqn:El;
      cbn [rbind] in Hlocs; [|discriminate].
    destruct (sample_locations direction data i ns) as [ls|] eqn:Els;
      cbn [rbind] in Hlocs; [|discriminate].
    injection Hlocs as <-.
    cbn [for_each]. unfold bind at 1.
    rewrite (animate_sample_run _ _ _ _ _ _ _ _ _ El Hidx Hk).
    rewrite (IH ls _ eq_refl).
    + now rewrite update_at_compose.
    + rewrite index_of_name_update_at; [exact Hidx | reflexivity].
Qed.

(** ** Name resolution *)

Lemma first_match_spec (m : string) (objs : list marker_object) (r : nat) :
  first_match m objs = Some r ->
  exists o,
    nth_error objs r = Some o
    /\ PyStr.contains m (ob_name o) = true
    /\ (forall j o', (j < r)%nat -> nth_error objs j = Some o' ->
                     PyStr.contains m (ob_name o') = false)
    /\ first_containing m (map ob_name objs) = Ok (ob_name o)
    /\ index_of_name (ob_name o) objs = Some r.
Proof.
  revert r. induction objs as [|x objs IH]; intros r; cbn [first_match].
  - discriminate.
  - unfold first_containing. cbn [map filter index_of_name nth_error].
    destruct (PyStr.contains m (ob_name x)) eqn:Ex.
    + intros [= <-]. exists x. rewrite String.eqb_refl.
      repeat split; try assumption. intros j o' Hj. lia.
    + destruct (first_match m objs) as [r'|] eqn:Er; [|discriminate].
      intros [= <-]. destruct (IH r' eq_refl) as (o & Hn & Hc & Hb & Hf & Hi).
      exists o. repeat split; try assumption.
      * intros [|j] o' Hj; simpl.
        -- now intros [= <-].
        -- apply Hb. lia.
      * destruct (String.eqb (ob_name x) (ob_name o)) eqn:Ee.
        -- apply String.eqb_eq in Ee. congruence.
        -- now rewrite Hi.
Qed.

Lemma first_match_none (m : string) (objs : list marker_object) :
  first_match m objs = None ->
  first_containing m (map ob_name objs) = Err IndexError.
Proof.
  unfold first_containing.
  induction objs as [|x objs IH]; cbn [first_match map filter].
  - reflexivity.
  - destruct (PyStr.contains m (ob_name x)); [discriminate|].
    destruct (first_match m objs); [discriminate|]. intros _. now apply IH.
Qed.

Lemma py_range_ok_step (start stop step : Z) (ns : list Z) :
  py_range start stop step = Ok ns -> step <> 0.
Proof.
  unfold py_range. destruct (step =? 0) eqn:E; [discriminate|].
  intros _. now apply Z.eqb_neq.
Qed.

(** The loop body for one trajectory, when its name resolves and every read
    is in range. *)
Lemma animate_marker_run (direction : string) (data : matrix) (len k i : Z)
  (m : string) (objs : list marker_object) (r : nat) (ns : list Z)
  (locs : list vec3) :
  first_match m objs = Some r ->
  py_range 0 len k = Ok ns ->
  sample_locations direction data i ns = Ok locs ->
  animate_marker direction data len k (i, m) objs
  = (update_at r (apply_samples k (combine ns locs)) objs, Ok tt).
Proof.
  intros Hm Hns Hlocs.
  destruct (first_match_spec _ _ _ Hm) as (o & _ & _ & _ & Hf & Hi).
  unfold animate_marker, bind, lift. rewrite Hf, Hns.
  exact (sample_loop_run _ _ _ _ _ _ (py_range_ok_step _ _ _ _ Hns)
           ns locs objs Hlocs Hi).
Qed.

(** ** The range of retained samples *)

Lemma py_range_from_0 (num_samples k : Z) :
  1 <= num_samples -> 0 < k ->
  py_range 0 num_samples k = Ok (retained_indices num_samples k).
Proof.
  intros HN Hk. unfold py_range, range_length, retained_indices, retained.
  replace (k =? 0) with false by (symmetry; apply Z.eqb_neq; lia).
  replace (0 <? k) with true by (symmetry; apply Z.ltb_lt; lia).
  replace (0 <? num_samples) with true by (symmetry; apply Z.ltb_lt; lia).
  rewrite Z.sub_0_r. apply f_equal. apply map_ext. intros j. lia.
Qed.

Lemma retained_indices_length (num_samples k : Z) :
  List.length (retained_indices num_samples k) = retained num_samples k.
Proof.
  unfold retained_indices. now rewrite length_map, length_seq.
Qed.

Lemma retained_indices_nth (num_samples k : Z) (j : nat) :
  (j < retained num_samples k)%nat ->
  nth_error (retained_indices num_samples k) j = Some (Z.of_nat j * k).
Proof.
  intros Hj. unfold retained_indices.
  rewrite nth_error_map.
  rewrite (nth_error_nth' (seq 0 (retained num_samples k)) 0%nat)
    by (now rewrite length_seq).
  rewrite seq_nth by exact Hj. reflexivity.
Qed.

Lemma retained_indices_nonneg (num_samples k : Z) :
  0 < k -> Forall (fun n => 0 <= n) (retained_indices num_samples k).
Proof.
  intros Hk. apply Forall_forall. intros n Hn.
  unfold retained_indices in Hn. apply in_map_iff in Hn as (j & <- & _). lia.
Qed.

Lemma retained_pos (num_samples k : Z) :
  1 <= num_samples -> 0 < k -> (1 <= retained num_samples k)%nat.
Proof.
  intros HN Hk. unfold retained.
  assert (0 <= (num_samples - 1) / k) by (apply Z.div_pos; lia). lia.
Qed.

(** On non-negative sample indices and a positive stride, the frame number
    [int(n / k) + 1] is [floor(n / k) + 1]. *)
Lemma frames_floor (k : Z) (ns : list Z) (locs : list vec3) :
  0 < k ->
  Forall (fun n => 0 <= n) ns ->
  map (fun nl : Z * vec3 => (Z.quot (fst nl) k + 1, snd nl)) (combine ns locs)
  = combine (map (fun n => n / k + 1) ns) locs.
Proof.
  intros Hk Hns. revert locs.
  induction Hns as [|n ns Hn _ IH]; intros [|loc locs]; simpl;
    try reflexivity.
  rewrite IH. now rewrite Z.quot_div_nonneg by lia.
Qed.

(** C5.  For a sample matrix of [num_samples] rows and a positive
    decimation factor [k], the loop of a trajectory whose name resolves and
    whose columns are in range retains [floor((num_samples - 1) / k) + 1]
    samples: that many indices are in the range and that many keyframes are
    recorded.  A target rate equal to a non-zero intrinsic rate gives stride
    1 and every sample; rates 120 and 30 give stride 4, and 121 samples then
    give 31 retained samples. *)
Theorem retained_samples_count :
  forall (direction : string) (data : matrix) (k i : Z) (m : string)
         (objs : list marker_object) (r : nat) (locs : list vec3),
    (1 <= List.length data)%nat ->
    0 < k ->
    let num_samples := Z.of_nat (List.length data) in
    first_match m objs = Some r ->
    sample_locations direction data i (retained_indices num_samples k) = Ok locs ->
    (exists (ns : list Z) (objs' : list marker_object),
        py_range 0 num_samples k = Ok ns
        /\ List.length ns = Z.to_nat ((num_samples - 1) / k + 1)
        /\ animate_marker direction data num_samples k (i, m) objs = (objs', Ok tt)
        /\ total_keyframes objs'
           = (total_keyframes objs + Z.to_nat ((num_samples - 1) / k + 1))%nat)
    /\ (forall fps : Z, fps <> 0 -> int_truediv fps fps = Ok 1)
    /\ py_range 0 num_samples 1
       = Ok (map Z.of_nat (seq 0 (List.length data)))
    /\ int_truediv 120 30 = Ok 4
    /\ Z.to_nat ((121 - 1) / 4 + 1) = 31%nat.
Proof.
  intros direction data k i m objs r locs Hlen Hk num_samples Hm Hlocs.
  assert (HN : 1 <= num_samples) by (unfold num_samples; lia).
  repeat split.
  - exists (retained_indices num_samples k).
    exists (update_at r
              (apply_samples k (combine (retained_indices num_samples k) locs))
              objs).
    pose proof (py_range_from_0 _ _ HN Hk) as Hr.
    destruct (first_match_spec _ _ _ Hm) as (o & Hn & _).
    repeat split.
    + exact Hr.
    + apply retained_indices_length.
    + exact (animate_marker_run _ _ _ _ _ _ _ _ _ _ Hm Hr Hlocs).
    + apply (total_keyframes_update_at _ _ _ o); [exact Hn|].
      rewrite apply_samples_keyframes, length_app, length_map, length_combine.
      rewrite (sample_locations_length _ _ _ _ _ Hlocs), Nat.min_id.
      now rewrite retained_indices_length.
  - intros fps Hfps. unfold int_truediv.
    replace (fps =? 0) with false by (symmetry; apply Z.eqb_neq; exact Hfps).
    now rewrite Z.quot_same.
  - rewrite py_range_step_1. unfold num_samples. now rewrite Nat2Z.id.
Qed.

Lemma retained_samples_count_witness :
  exists (ns : list Z) (objs' : list marker_object),
    py_range 0 2 1 = Ok ns
    /\ List.length ns = 2%nat
    /\ animate_marker "zup" Demo.hip_data 2 1 (2, "Hip") Demo.hip_objects
       = (objs', Ok tt)
    /\ total_keyframes objs' = 2%nat.
Proof.
  refine (proj1 (retained_samples_count "zup" Demo.hip_data 1 2 "Hip"
                   Demo.hip_objects 0
                   [(7, - (9), 8); (17, - (19), 18)]%Q _ _ _ _)).
  - simpl. lia.
  - lia.
  - reflexivity.
  - reflexivity.
Defined.

(** C6.  For a positive stride [k], the keyframes the loop of a trajectory
    records on its object are those of the retained samples
    [n = 0, k, 2k, ...], each at frame [floor(n / k) + 1]: the first retained
    sample is recorded at frame 1 and the [j]-th one, [n = j * k], at frame
    [j + 1]. *)
Theorem keyframe_frame_numbers :
  forall (direction : string) (data : matrix) (k i : Z) (m : string)
         (objs : list marker_object) (r : nat) (o : marker_object)
         (locs : list vec3),
    (1 <= List.length data)%nat ->
    0 < k ->
    let num_samples := Z.of_nat (List.length data) in
    let ns := retained_indices num_samples k in
    let frames := map (fun n => n / k + 1) ns in
    first_match m objs = Some r ->
    nth_error objs r = Some o ->
    sample_locations direction data i ns = Ok locs ->
    exists (objs' : list marker_object) (o' : marker_object),
      py_range 0 num_samples k = Ok ns
      /\ animate_marker direction data num_samples k (i, m) objs = (objs', Ok tt)
      /\ nth_error objs' r = Some o'
      /\ ob_keyframes o' = (ob_keyframes o ++ combine frames locs)%list
      /\ nth_error ns 0 = Some 0
      /\ nth_error frames 0 = Some 1
      /\ (forall j : nat,
             (j < List.length ns)%nat ->
             nth_error ns j = Some (Z.of_nat j * k)
             /\ nth_error frames j = Some (Z.of_nat j + 1)).
Proof.
  intros direction data k i m objs r o locs Hlen Hk num_samples ns frames
    Hm Ho Hlocs.
  assert (HN : 1 <= num_samples) by (unfold num_samples; lia).
  pose proof (py_range_from_0 _ _ HN Hk) as Hr. fold ns in Hr.
  assert (Hnth : forall j : nat,
             (j < List.length ns)%nat ->
             nth_error ns j = Some (Z.of_nat j * k)
             /\ nth_error frames j = Some (Z.of_nat j + 1)).
  { intros j Hj. unfold ns in Hj. rewrite retained_indices_length in Hj.
    pose proof (retained_indices_nth _ _ _ Hj) as E. fold ns in E.
    split; [exact E|].
    unfold frames. rewrite nth_error_map, E. simpl.
    now rewrite Z.div_mul by lia. }
  assert (H0 : (0 < List.length ns)%nat).
  { unfold ns. rewrite retained_indices_length.
    pose proof (retained_pos _ _ HN Hk). lia. }
  exists (update_at r (apply_samples k (combine ns locs)) objs).
  exists (apply_samples k (combine ns locs) o).
  repeat split.
  - exact Hr.
  - exact (animate_marker_run _ _ _ _ _ _ _ _ _ _ Hm Hr Hlocs).
  - now apply update_at_hit.
  - rewrite apply_samples_keyframes. apply f_equal.
    apply frames_floor; [exact Hk|]. now apply retained_indices_nonneg.
  - exact (proj1 (Hnth 0%nat H0)).
  - exact (proj2 (Hnth 0%nat H0)).
  - exact (proj1 (Hnth j H)).
  - exact (proj2 (Hnth j H)).
Qed.

Lemma keyframe_frame_numbers_witness :
  exists (objs' : list marker_object) (o' : marker_object),
    py_range 0 2 1 = Ok [0; 1]
    /\ animate_marker "zup" Demo.hip_data 2 1 (2, "Hip") Demo.hip_objects
       = (objs', Ok tt)
    /\ nth_error objs' 0 = Some o'
    /\ ob_keyframes o' = [(1, (7, - (9), 8)%Q); (2, (17, - (19), 18)%Q)]
    /\ nth_error [0; 1] 0 = Some 0
    /\ nth_error [1; 2] 0 = Some 1
    /\ (forall j : nat,
           (j < 2)%nat ->
           nth_error [0; 1] j = Some (Z.of_nat j * 1)
           /\ nth_error [1; 2] j = Some (Z.of_nat j + 1)).
Proof.
  refine (keyframe_frame_numbers "zup" Demo.hip_data 1 2 "Hip"
            Demo.hip_objects 0
            (mkObject "LeftHip" (0, 0, 0)%Q COLOR RADIUS [])
            [(7, - (9), 8); (17, - (19), 18)]%Q _ _ _ _ _).
  - simpl. lia.
  - lia.
  - reflexivity.
  - reflexivity.
  - reflexivity.
Defined.

(** C7.  One pass of the sample loop for trajectory [i] at sample [n], with
    the raw triple [(a, b, c)] read from columns [3i+1], [3i+2], [3i+3] of
    row [n]: the position set on the marker, and recorded as its keyframe,
    is [(a, -c, b)] for ['zup'] and [(a, c, b)] for ['yup']. *)
Theorem sample_position_remapped :
  forall (direction : string) (data : matrix) (k i : Z) (name : string)
         (n : Z) (objs : list marker_object) (r : nat) (o : marker_object)
         (a b c : Q),
    at2 data n (3 * i + 1) = Ok a ->
    at2 data n (3 * i + 2) = Ok b ->
    at2 data n (3 * i + 3) = Ok c ->
    index_of_name name objs = Some r ->
    nth_error objs r = Some o ->
    k <> 0 ->
    exists (objs' : list marker_object) (o' : marker_object),
      animate_sample direction data k i name n objs = (objs', Ok tt)
      /\ nth_error objs' r = Some o'
      /\ ob_location o' = axis_remap direction (a, b, c)
      /\ ob_keyframes o'
         = (ob_keyframes o
            ++ [(Z.quot n k + 1, axis_remap direction (a, b, c))])%list
      /\ (direction = "zup" -> ob_location o' = (a, - c, b)%Q)
      /\ (direction = "yup" -> ob_location o' = (a, c, b)).
Proof.
  intros direction data k i name n objs r o a b c Ha Hb Hc Hidx Ho Hk.
  pose proof (sample_location_remap direction _ _ _ _ _ _ Ha Hb Hc) as Hloc.
  exists (update_at r
            (fun o => record_sample k o (n, axis_remap direction (a, b, c)))
            objs).
  exists (record_sample k o (n, axis_remap direction (a, b, c))).
  repeat split.
  - exact (animate_sample_run _ _ _ _ _ _ _ _ _ Hloc Hidx Hk).
  - exact (update_at_hit r
             (fun o => record_sample k o (n, axis_remap direction (a, b, c)))
             objs o Ho).
  - intros ->. reflexivity.
  - intros ->. reflexivity.
Qed.

Lemma sample_position_remapped_witness :
  exists (objs' : list marker_object) (o' : marker_object),
    animate_sample "zup" Demo.hip_data 1 2 "Hip" 1 Demo.hip_objects
    = (objs', Ok tt)
    /\ nth_error objs' 2 = Some o'
    /\ ob_location o' = (17, - (19), 18)%Q.
Proof.
  destruct (sample_position_remapped "zup" Demo.hip_data 1 2 "Hip" 1
              Demo.hip_objects 2
              (mkObject "Hip" (0, 0, 0)%Q COLOR RADIUS [])
              17 18 19)
    as (objs' & o' & Hrun & Hn & _ & _ & Hz & _);
    try reflexivity; try lia.
  exists objs', o'. repeat split.
  - exact Hrun.
  - exact Hn.
  - exact (Hz eq_refl).
Defined.

(** ** Name resolution in the animation loop *)

(** C9.  In any state of the marker collection in which some object's name
    contains the trajectory name [m], lines 141-142 and 153 resolve [m] to
    the first such object in the order of the collection, and the loop of
    the trajectory records its keyframes on that object and changes no
    other.  So when an object created for an earlier trajectory (a position
    [j] below the trajectory index [i]) has a name that contains [m], the
    object animated is at a position at most [j], and the object at position
    [i], created for trajectory [i], is left as it was. *)
Theorem name_resolution_first_containing :
  forall (m : string) (objs : list marker_object) (r : nat),
    first_match m objs = Some r ->
    exists o : marker_object,
      nth_error objs r = Some o
      /\ PyStr.contains m (ob_name o) = true
      /\ (forall (j : nat) (o' : marker_object),
             (j < r)%nat -> nth_error objs j = Some o' ->
             PyStr.contains m (ob_name o') = false)
      /\ (m' <- lift (first_containing m (map ob_name objs)) ;; lookup_object m')
           objs
         = (objs, Ok r)
      /\ (forall (direction : string) (data : matrix) (len k i : Z)
                 (ns : list Z) (locs : list vec3),
             py_range 0 len k = Ok ns ->
             sample_locations direction data i ns = Ok locs ->
             let objs' := update_at r (apply_samples k (combine ns locs)) objs in
             animate_marker direction data len k (i, m) objs = (objs', Ok tt)
             /\ nth_error objs' r = Some (apply_samples k (combine ns locs) o)
             /\ (forall j : nat, j <> r -> nth_error objs' j = nth_error objs j)
             /\ (forall (j : nat) (oj : marker_object),
                    (j < Z.to_nat i)%nat ->
                    nth_error objs j = Some oj ->
                    PyStr.contains m (ob_name oj) = true ->
                    (r <= j)%nat
                    /\ nth_error objs' (Z.to_nat i)
                       = nth_error objs (Z.to_nat i))).
Proof.
  intros m objs r Hm.
  destruct (first_match_spec _ _ _ Hm) as (o & Hn & Hc & Hb & Hf & Hi).
  exists o.
  split; [exact Hn|]. split; [exact Hc|]. split; [exact Hb|]. split.
  - unfold bind, lift, lookup_object. now rewrite Hf, Hi.
  - intros direction data len k i ns locs Hns Hlocs objs'.
    split; [|split; [|split]].
    + exact (animate_marker_run _ _ _ _ _ _ _ _ _ _ Hm Hns Hlocs).
    + exact (update_at_hit r (apply_samples k (combine ns locs)) objs o Hn).
    + intros j Hj. unfold objs'. now apply update_at_miss.
    + intros j oj Hj Hoj Hcj.
      assert (Hle : (r <= j)%nat).
      { destruct (Nat.le_gt_cases r j) as [Hle|Hgt]; [exact Hle|].
        rewrite (Hb j oj Hgt Hoj) in Hcj. discriminate. }
      split; [exact Hle|]. unfold objs'. apply update_at_miss. lia.
Qed.

Lemma name_resolution_first_containing_witness :
  (m' <- lift (first_containing "Hip" (map ob_name Demo.hip_objects)) ;;
   lookup_object m') Demo.hip_objects
  = (Demo.hip_objects, Ok 0%nat)
  /\ animate_marker "zup" Demo.hip_data 2 1 (2, "Hip") Demo.hip_objects
     = (update_at 0
          (apply_samples 1 [(0, (7, - (9), 8)%Q); (1, (17, - (19), 18)%Q)])
          Demo.hip_objects, Ok tt)
  /\ nth_error
       (update_at 0
          (apply_samples 1 [(0, (7, - (9), 8)%Q); (1, (17, - (19), 18)%Q)])
          Demo.hip_objects) 2
     = nth_error Demo.hip_objects 2.
Proof.
  destruct (name_resolution_first_containing "Hip" Demo.hip_objects 0 eq_refl)
    as (o & _ & _ & _ & Hres & Hloop).
  destruct (Hloop "zup" Demo.hip_data 2 1 2 [0; 1]
              [(7, - (9), 8); (17, - (19), 18)]%Q eq_refl eq_refl)
    as (Hrun & _ & _ & Hearlier).
  split; [exact Hres|]. split; [exact Hrun|].
  refine (proj2 (Hearlier 0%nat
                   (mkObject "LeftHip" (0, 0, 0)%Q COLOR RADIUS []) _ _ _)).
  - simpl. lia.
  - reflexivity.
  - reflexivity.
Defined.

(** ** The failure path of a zero decimation factor *)

Lemma create_markers_run (host_name : list string -> string -> string)
  (taken : list string) (names : list string) :
  forall objs0 : list marker_object,
  exists created : list marker_object,
    for_each names
      (fun markerName => addMarker host_name taken (0, 0, 0)%Q markerName COLOR)
      objs0
    = ((objs0 ++ created)%list, Ok tt)
    /\ List.length created = List.length names
    /\ Forall (fun o => ob_keyframes o = [] /\ ob_location o = (0, 0, 0)%Q)
         created
    /\ Forall2 (fun name o => exists tk, ob_name o = host_name tk name)
         names created.
Proof.
  induction names as [|n ns IH]; intros objs0.
  - exists []. simpl. unfold ret. rewrite app_nil_r. repeat split; constructor.
  - cbn [for_each]. unfold bind at 1. unfold addMarker at 1.
    set (sphere := mkObject _ _ _ _ _).
    destruct (IH (objs0 ++ [sphere])%list) as (created & Hrun & Hlen & Hk & Hn).
    exists (sphere :: created). rewrite Hrun. rewrite <- app_assoc.
    repeat split.
    + simpl. now rewrite Hlen.
    + constructor; [now split | exact Hk].
    + constructor; [|exact Hn].
      now exists (taken ++ map ob_name objs0)%list.
Qed.

(** C10.  For a ['.trc'] file that loads and whose decimation factor comes
    out as 0, the import raises once the markers exist: the scene has the
    target frame rate, the new collection is linked after the collections
    that were there and holds one object per trajectory name, still at the
    origin and without a keyframe, and nothing is undone.  The exception is
    the [ValueError] of [range] when the first name resolves (the
    [IndexError] of the name resolution otherwise). *)
Theorem import_trc_zero_factor_keeps_effects :
  forall (fs : string -> option string)
         (np_loadtxt : string -> nat -> result ndarray)
         (host_name : list string -> string -> string)
         (c3d_import : string -> scene -> scene * result unit)
         (trc_path direction : string) (target_framerate : Z) (s : scene)
         (data : matrix) (names : list string) (len fps : Z),
    PyStr.endswith trc_path ".trc" = true ->
    load_trc fs np_loadtxt trc_path = Ok (data, names) ->
    frame_rates data target_framerate = Ok (len, fps, 0) ->
    exists (objs : list marker_object) (cname : string) (e : exn),
      import_trc fs np_loadtxt host_name c3d_import trc_path direction
        target_framerate s
      = ({| render_fps := target_framerate;
            scene_collections :=
              (scene_collections s ++ [mkCollection cname objs])%list |},
         Err e)
      /\ List.length objs = List.length names
      /\ Forall2 (fun name o => exists tk, ob_name o = host_name tk name)
           names objs
      /\ Forall (fun o => ob_keyframes o = [] /\ ob_location o = (0, 0, 0)%Q)
           objs
      /\ e = match first_match (hd EmptyString names) objs with
             | Some _ => ValueError
             | None => IndexError
             end.
Proof.
  intros fs np_loadtxt host_name c3d_import trc_path direction target s
    data names len fps Hext Hload Hrates.
  pose proof (load_trc_names_not_nil _ _ _ _ _ Hload) as Hne.
  destruct (create_markers_run host_name
              (scene_object_names (set_render_fps s target)) names [])
    as (objs & Hrun & Hlen & Hk & Hn).
  exists objs.
  exists (host_name (map coll_name (scene_collections s)) "markers").
  exists (match first_match (hd EmptyString names) objs with
          | Some _ => ValueError
          | None => IndexError
          end).
  repeat split; try assumption.
  unfold import_trc. rewrite Hext, Hload, Hrates.
  unfold create_and_animate. unfold bind at 1. rewrite Hrun.
  cbn [app].
  destruct names as [|m0 rest]; [congruence|].
  cbn [hd enumerate enumerate_from for_each]. unfold bind at 1.
  unfold animate_marker, bind, lift.
  destruct (first_match m0 objs) as [r|] eqn:Em.
  - destruct (first_match_spec _ _ _ Em) as (o & _ & _ & _ & Hf & _).
    rewrite Hf. reflexivity.
  - rewrite (first_match_none _ _ Em). reflexivity.
Qed.

Lemma import_trc_zero_factor_keeps_effects_witness :
  exists (objs : list marker_object) (cname : string) (e : exn),
    import_trc Demo.fs Demo.np_loadtxt Demo.host_name Demo.c3d_import
      "demo.trc" "zup" 30 Demo.scene0
    = ({| render_fps := 30;
          scene_collections := [mkCollection cname objs] |}, Err e)
    /\ List.length objs = 2%nat.
Proof.
  destruct (import_trc_zero_factor_keeps_effects Demo.fs Demo.np_loadtxt
              Demo.host_name Demo.c3d_import "demo.trc" "zup" 30 Demo.scene0
              (map (fun r => skipn 1 r) Demo.trc_rows) ["A"; "B"] 3 2)
    as (objs & cname & e & Hrun & Hlen & _).
  - reflexivity.
  - reflexivity.
  - reflexivity.
  - exists objs, cname, e. split; [exact Hrun | exact Hlen].
Defined.

(** ** A whole import *)

(** The 121-sample file at 120 Hz imported at 30 Hz: stride 4, and the
    marker gets 31 keyframes, on frames 1 to 31. *)
Example import_trc_120_to_30 :
  let '(s, r) :=
    import_trc Demo.fs Demo.np_loadtxt Demo.host_name Demo.c3d_import
      "walk120.trc" "zup" 30 Demo.scene0 in
  r = Ok tt
  /\ render_fps s = 30
  /\ map (fun c => map (fun o => (ob_name o, map fst (ob_keyframes o)))
                       (coll_objects c))
         (scene_collections s)
     = [[("Hip", map (fun j => Z.of_nat j + 1) (seq 0 31))]].
Proof.
  vm_compute. repeat split.
Qed.

(** The two-marker file imported at the default axis convention and at its
    own rate. *)
Example import_trc_demo :
  import_trc Demo.fs Demo.np_loadtxt Demo.host_name Demo.c3d_import
    "demo.trc" "zup" 2 Demo.scene0
  = ({| render_fps := 2;
        scene_collections :=
          [mkCollection "markers"
             [mkObject "A" (13, - (15), 14)%Q COLOR RADIUS
                [(1, (1, - (3), 2)%Q); (2, (7, - (9), 8)%Q);
                 (3, (13, - (15), 14)%Q)];
              mkObject "B" (16, - (18), 17)%Q COLOR RADIUS
                [(1, (4, - (6), 5)%Q); (2, (10, - (12), 11)%Q);
                 (3, (16, - (18), 17)%Q)]]] |},
     Ok tt).
Proof.
  vm_compute. reflexivity.
Qed.

(** * Further properties of the loader *)

Lemma substring_zero (n : nat) (s : string) : substring n 0 s = EmptyString.
Proof.
  revert n. induction s as [|c s IH]; intros [|n]; simpl; try reflexivity.
  apply IH.
Qed.

Lemma append_nil_r (s : string) : s ++ EmptyString = s.
Proof.
  induction s as [|c s IH]; simpl; [reflexivity | now rewrite IH].
Qed.

Lemma append_assoc (a b c : string) : (a ++ b) ++ c = a ++ (b ++ c).
Proof.
  induction a as [|x a IH]; simpl; [reflexivity | now rewrite IH].
Qed.

(** A line of at most 15 characters has nothing between its first 12 and
    its last 3 characters. *)
Lemma slice_short (s : string) :
  (String.length s <= 15)%nat -> PyStr.slice s 12 (-3) = EmptyString.
Proof.
  intros H. unfold PyStr.slice, PyStr.clip.
  replace (12 <? 0) with false by reflexivity.
  replace (-3 <? 0) with true by reflexivity.
  replace (Z.to_nat
             (Z.max 0 (Z.of_nat (String.length s) + -3)
              - Z.min 12 (Z.of_nat (String.length s))))
    with 0%nat by lia.
  apply substring_zero.
Qed.

Lemma load_trc_inv fs np_loadtxt path data names :
  load_trc fs np_loadtxt path = Ok (data, names) ->
  exists text a,
    fs path = Some text
    /\ np_loadtxt text 5%nat = Ok a
    /\ drop_first_column a = Ok data
    /\ read_marker_names text = Ok names.
Proof.
  unfold load_trc.
  destruct (fs path) as [text|]; [|discriminate].
  destruct (np_loadtxt text 5%nat) as [a|] eqn:Ea; cbn [rbind]; [|discriminate].
  destruct (drop_first_column a) as [d|] eqn:Ed; cbn [rbind]; [|discriminate].
  destruct (read_marker_names text) as [ns|] eqn:En; cbn [rbind]; [|discriminate].
  intros [= <- <-]. exists text, a. repeat split; assumption.
Qed.

(** X1.  Whenever the loader returns, it returns at least one trajectory
    name; and when line index 3 of the file has at most 15 characters the
    names are the single empty name. *)
Theorem load_trc_names_never_empty :
  forall (fs : string -> option string)
         (np_loadtxt : string -> nat -> result ndarray)
         (path : string) (data : matrix) (names : list string),
    load_trc fs np_loadtxt path = Ok (data, names) ->
    names <> []
    /\ (forall text l3 : string,
           fs path = Some text ->
           nth_error (PyStr.lines text) 3 = Some l3 ->
           (String.length l3 <= 15)%nat ->
           names = [EmptyString]).
Proof.
  intros fs np_loadtxt path data names Hload. split.
  - exact (load_trc_names_not_nil _ _ _ _ _ Hload).
  - intros text l3 Hfs Hl3 Hshort.
    apply load_trc_inv in Hload as (text' & a & Hfs' & _ & _ & Hnames).
    rewrite Hfs in Hfs'. injection Hfs' as <-.
    rewrite (read_marker_names_line3 _ _ Hl3) in Hnames.
    injection Hnames as <-. now rewrite slice_short.
Qed.

Lemma load_trc_names_never_empty_witness : ["A"; "B"] <> [].
Proof.
  exact (proj1 (load_trc_names_never_empty Demo.fs Demo.np_loadtxt "demo.trc"
                  (map (fun r => skipn 1 r) Demo.trc_rows) ["A"; "B"]
                  eq_refl)).
Defined.

Lemma prefix_tab3_other (c : ascii) (s : string) :
  Ascii.eqb c PyStr.TAB = false -> prefix PyStr.tab3 (String c s) = false.
Proof.
  intros H. unfold PyStr.tab3. cbn [prefix].
  destruct (ascii_dec PyStr.TAB c) as [E|E]; [|reflexivity].
  subst c. now rewrite Ascii.eqb_refl in H.
Qed.

(** Splitting a tab-free piece followed by a separator. *)
Lemma split_go_piece (n rest cur : string) :
  tab_free n = true ->
  PyStr.split_go PyStr.tab3 (n ++ PyStr.tab3 ++ rest) 0 cur
  = (cur ++ n) :: PyStr.split_go PyStr.tab3 rest 0 EmptyString.
Proof.
  revert cur. induction n as [|c n IH]; intros cur Hn.
  - rewrite append_nil_r. destruct rest; reflexivity.
  - cbn [tab_free] in Hn. apply andb_prop in Hn as [Hc Hn].
    apply negb_true_iff in Hc.
    change (String c n ++ PyStr.tab3 ++ rest)
      with (String c (n ++ PyStr.tab3 ++ rest)).
    cbn [PyStr.split_go]. rewrite (prefix_tab3_other _ _ Hc).
    rewrite (IH _ Hn). now rewrite append_assoc.
Qed.

(** Splitting a last, tab-free piece. *)
Lemma split_go_last (n cur : string) :
  tab_free n = true ->
  PyStr.split_go PyStr.tab3 n 0 cur = [cur ++ n].
Proof.
  revert cur. induction n as [|c n IH]; intros cur Hn.
  - now rewrite append_nil_r.
  - cbn [tab_free] in Hn. apply andb_prop in Hn as [Hc Hn].
    apply negb_true_iff in Hc.
    cbn [PyStr.split_go]. rewrite (prefix_tab3_other _ _ Hc).
    rewrite (IH _ Hn). now rewrite append_assoc.
Qed.

(** Splitting undoes joining, for tab-free pieces. *)
Lemma split_concat (names : list string) :
  names <> [] ->
  forallb tab_free names = true ->
  PyStr.split (String.concat PyStr.tab3 names) PyStr.tab3 = names.
Proof.
  unfold PyStr.split.
  induction names as [|n names IH]; intros Hne Hfree; [congruence|].
  cbn [forallb] in Hfree. apply andb_prop in Hfree as [Hn Hrest].
  destruct names as [|n2 names].
  - cbn [String.concat]. now rewrite split_go_last.
  - change (String.concat PyStr.tab3 (n :: n2 :: names))
      with (n ++ PyStr.tab3 ++ String.concat PyStr.tab3 (n2 :: names)).
    rewrite (split_go_piece _ _ _ Hn). cbn [append]. f_equal.
    apply IH; [discriminate | exact Hrest].
Qed.

(** X2.  Round trip of the header: when line index 3 of the file is a
    12-character label, tab-free names joined by three tabs, and a
    3-character tail, the loader returns exactly those names, in order. *)
Theorem load_trc_names_round_trip :
  forall (fs : string -> option string)
         (np_loadtxt : string -> nat -> result ndarray)
         (path text label tail : string) (rows : list (list Q))
         (names : list string),
    fs path = Some text ->
    np_loadtxt text 5%nat = Ok (Arr2 rows) ->
    String.length label = 12%nat ->
    String.length tail = 3%nat ->
    names <> [] ->
    forallb tab_free names = true ->
    nth_error (PyStr.lines text) 3
    = Some (label ++ String.concat PyStr.tab3 names ++ tail) ->
    load_trc fs np_loadtxt path = Ok (map (fun r => skipn 1 r) rows, names).
Proof.
  intros fs np_loadtxt path text label tail rows names
    Hfs Hnp Hl Ht Hne Hfree Hl3.
  unfold load_trc. rewrite Hfs, Hnp. cbn [rbind drop_first_column].
  rewrite (read_marker_names_line3 _ _ Hl3). cbn [rbind].
  now rewrite slice_12_m3, split_concat.
Qed.

Lemma load_trc_names_round_trip_witness :
  load_trc Demo.fs Demo.np_loadtxt "demo.trc"
  = Ok (map (fun r => skipn 1 r) Demo.trc_rows, ["A"; "B"]).
Proof.
  apply (load_trc_names_round_trip Demo.fs Demo.np_loadtxt "demo.trc"
           Demo.trc_text
           ("Frame#" ++ Demo.t1 ++ "Time" ++ Demo.t1)
           (Demo.t1 ++ Demo.t1 ++ Demo.nl)).
  - reflexivity.
  - reflexivity.
  - reflexivity.
  - reflexivity.
  - discriminate.
  - reflexivity.
  - reflexivity.
Defined.

(** * Further properties of the driver: dispatch and early failures *)

(** X3.  When the loader raises on a ['.trc'] path, the import raises the
    same exception and the scene is left exactly as it was: not even the
    frame rate is set.  A missing file is such a case. *)
Theorem import_trc_load_failure_untouched :
  forall (fs : string -> option string)
         (np_loadtxt : string -> nat -> result ndarray)
         (host_name : list string -> string -> string)
         (c3d_import : string -> scene -> scene * result unit)
         (trc_path direction : string) (target_framerate : Z) (s : scene)
         (e : exn),
    PyStr.endswith trc_path ".trc" = true ->
    load_trc fs np_loadtxt trc_path = Err e ->
    import_trc fs np_loadtxt host_name c3d_import trc_path direction
      target_framerate s
    = (s, Err e)
    /\ (fs trc_path = None -> e = FileNotFoundError).
Proof.
  intros fs np_loadtxt host_name c3d_import trc_path direction target s e
    Hext Hload.
  split.
  - unfold import_trc. now rewrite Hext, Hload.
  - intros Hfs. unfold load_trc in Hload. rewrite Hfs in Hload. congruence.
Qed.

Lemma import_trc_load_failure_untouched_witness :
  import_trc Demo.fs Demo.np_loadtxt Demo.host_name Demo.c3d_import
    "missing.trc" "zup" 30 Demo.scene0
  = (Demo.scene0, Err FileNotFoundError).
Proof.
  exact (proj1 (import_trc_load_failure_untouched Demo.fs Demo.np_loadtxt
                  Demo.host_name Demo.c3d_import "missing.trc" "zup" 30
                  Demo.scene0 FileNotFoundError eq_refl eq_refl)).
Defined.

(** X4.  When the rates cannot be computed (lines 128-130 raise), the
    import raises with the scene changed in one respect only: its frame rate
    is already the target rate.  No collection has been created. *)
Theorem import_trc_rate_failure_sets_fps_only :
  forall (fs : string -> option string)
         (np_loadtxt : string -> nat -> result ndarray)
         (host_name : list string -> string -> string)
         (c3d_import : string -> scene -> scene * result unit)
         (trc_path direction : string) (target_framerate : Z) (s : scene)
         (data : matrix) (names : list string) (e : exn),
    PyStr.endswith trc_path ".trc" = true ->
    load_trc fs np_loadtxt trc_path = Ok (data, names) ->
    frame_rates data target_framerate = Err e ->
    import_trc fs np_loadtxt host_name c3d_import trc_path direction
      target_framerate s
    = ({| render_fps := target_framerate;
          scene_collections := scene_collections s |}, Err e).
Proof.
  intros fs np_loadtxt host_name c3d_import trc_path direction target s
    data names e Hext Hload Hrates.
  unfold import_trc. now rewrite Hext, Hload, Hrates.
Qed.

Lemma import_trc_rate_failure_sets_fps_only_witness :
  import_trc Demo2.fs Demo2.np_loadtxt Demo.host_name Demo.c3d_import
    "frozen.trc" "zup" 30 Demo.scene0
  = ({| render_fps := 30; scene_collections := [] |}, Err OverflowError).
Proof.
  exact (import_trc_rate_failure_sets_fps_only Demo2.fs Demo2.np_loadtxt
           Demo.host_name Demo.c3d_import "frozen.trc" "zup" 30 Demo.scene0
           (map (fun r => skipn 1 r) Demo2.frozen_rows) ["A"]
           OverflowError eq_refl eq_refl eq_refl).
Defined.

Lemma column0_error (data : matrix) (e : exn) :
  column0 data = Err e -> e = IndexError.
Proof.
  induction data as [|row rows IH]; cbn [column0]; [discriminate|].
  destruct (nth_error row 0); [|now intros [= <-]].
  destruct (column0 rows) as [xs|e']; cbn [rbind]; [discriminate|].
  intros [= <-]. now apply IH.
Qed.

Lemma intrinsic_fps_error (times : list Q) (e : exn) :
  intrinsic_fps times = Err e ->
  e = IndexError \/ e = ValueError \/ e = OverflowError.
Proof.
  unfold intrinsic_fps. destruct times as [|t0 rest].
  - intros [= <-]. now left.
  - cbv zeta.
    destruct (Float64.div _ _); cbn [Float64.to_int]; intros H;
      try discriminate H; injection H as <-; auto.
Qed.

(** X5.  How lines 128-130 fail.  They raise nothing but [IndexError],
    [ValueError], [OverflowError] and [ZeroDivisionError], and they raise
    [ZeroDivisionError] exactly when line 129 has returned a rate and the
    target rate is 0: a time span of zero is not a division by zero, it
    gives the float64 [inf] or [nan] that [int] rejects. *)
Theorem frame_rates_failures :
  forall (data : matrix) (target_framerate : Z),
    (frame_rates data target_framerate = Err ZeroDivisionError
     <-> target_framerate = 0
         /\ exists (times : list Q) (fps : Z),
              column0 data = Ok times /\ intrinsic_fps times = Ok fps)
    /\ (forall e : exn,
          frame_rates data target_framerate = Err e ->
          e = IndexError \/ e = ValueError \/ e = OverflowError
          \/ e = ZeroDivisionError).
Proof.
  intros data target. unfold frame_rates.
  destruct (column0 data) as [times|e0] eqn:Ecol; cbn [rbind].
  - destruct (intrinsic_fps times) as [fps|e1] eqn:Efps; cbn [rbind].
    + unfold int_truediv. destruct (target =? 0) eqn:Et; cbn [rbind].
      * apply Z.eqb_eq in Et. split.
        -- split; [|reflexivity]. intros _. split; [exact Et|].
           now exists times, fps.
        -- intros e [= <-]. auto.
      * apply Z.eqb_neq in Et. split.
        -- split; [discriminate|]. intros [H _]. contradiction.
        -- discriminate.
    + split.
      * split.
        -- intros [= ->].
           destruct (intrinsic_fps_error _ _ Efps) as [H|[H|H]]; discriminate H.
        -- intros (_ & ts & f & [= <-] & H). congruence.
      * intros e [= <-].
        destruct (intrinsic_fps_error _ _ Efps) as [->|[->| ->]]; auto.
  - rewrite (column0_error _ _ Ecol). split.
    + split; [discriminate|]. intros (_ & ts & f & H & _). discriminate H.
    + intros e [= <-]. auto.
Qed.

Lemma frame_rates_failures_witness :
  frame_rates (map (fun r => skipn 1 r) Demo.trc_rows) 0
  = Err ZeroDivisionError
  /\ frame_rates (map (fun r => skipn 1 r) Demo2.frozen_rows) 0
     <> Err ZeroDivisionError.
Proof.
  split.
  - apply (proj2 (proj1 (frame_rates_failures
                           (map (fun r => skipn 1 r) Demo.trc_rows) 0))).
    split; [reflexivity|]. exists [0; 1 # 2; 1]%Q, 2. split; reflexivity.
  - intros H.
    destruct (proj1 (proj1 (frame_rates_failures
                              (map (fun r => skipn 1 r) Demo2.frozen_rows) 0))
                H)
      as (_ & ts & f & Hc & Hf).
    injection Hc as <-. discriminate Hf.
Defined.

Lemma endswith_c3d_not_trc (path : string) :
  PyStr.endswith path ".c3d" = true -> PyStr.endswith path ".trc" = false.
Proof.
  unfold PyStr.endswith. cbn [String.length]. intros H.
  apply andb_prop in H as [H1 H2]. apply String.eqb_eq in H2.
  now rewrite H1, H2.
Qed.

(** X6.  A path that ends in ['.c3d'] is handed to the host importer and
    nothing else is done: the result is the importer's, whatever the axis
    convention and the target frame rate, which are not used. *)
Theorem import_trc_c3d_delegates :
  forall (fs : string -> option string)
         (np_loadtxt : string -> nat -> result ndarray)
         (host_name : list string -> string -> string)
         (c3d_import : string -> scene -> scene * result unit)
         (trc_path direction : string) (target_framerate : Z) (s : scene),
    PyStr.endswith trc_path ".c3d" = true ->
    import_trc fs np_loadtxt host_name c3d_import trc_path direction
      target_framerate s
    = c3d_import trc_path s.
Proof.
  intros fs np_loadtxt host_name c3d_import trc_path direction target s H.
  unfold import_trc. now rewrite (endswith_c3d_not_trc _ H), H.
Qed.

Lemma import_trc_c3d_delegates_witness :
  import_trc Demo.fs Demo.np_loadtxt Demo.host_name Demo.c3d_import
    "walk.c3d" "yup" 60 Demo.scene0
  = Demo.c3d_import "walk.c3d" Demo.scene0.
Proof.
  apply import_trc_c3d_delegates. reflexivity.
Defined.

(** * Further properties of the animation loop *)

(** ** What the loop never changes *)

Lemma grows_refl (o : marker_object) : grows o o.
Proof.
  repeat split. exists []. now rewrite app_nil_r.
Qed.

Lemma grows_trans (a b c : marker_object) : grows a b -> grows b c -> grows a c.
Proof.
  intros (Hn1 & Hc1 & Hr1 & x1 & Hk1) (Hn2 & Hc2 & Hr2 & x2 & Hk2).
  repeat split; try congruence.
  exists (x1 ++ x2)%list. now rewrite Hk2, Hk1, app_assoc.
Qed.

Lemma Forall2_grows_refl (objs : list marker_object) : Forall2 grows objs objs.
Proof.
  induction objs; constructor; [apply grows_refl | assumption].
Qed.

Lemma Forall2_grows_trans (a b c : list marker_object) :
  Forall2 grows a b -> Forall2 grows b c -> Forall2 grows a c.
Proof.
  intros Hab. revert c. induction Hab as [|x y a b Hxy _ IH]; intros c Hbc.
  - inversion Hbc. constructor.
  - inversion Hbc as [|y' z b' c' Hyz Hbc']; subst.
    constructor; [exact (grows_trans _ _ _ Hxy Hyz) | now apply IH].
Qed.

Lemma update_at_grows (r : nat) (f : marker_object -> marker_object)
  (objs : list marker_object) :
  (forall o, grows o (f o)) -> Forall2 grows objs (update_at r f objs).
Proof.
  intros Hf. revert r. induction objs as [|o objs IH]; intros [|r]; simpl.
  - constructor.
  - constructor.
  - constructor; [apply Hf | apply Forall2_grows_refl].
  - constructor; [apply grows_refl | apply IH].
Qed.

Lemma set_location_grows (loc : vec3) (o : marker_object) :
  grows o (set_location o loc).
Proof.
  repeat split. exists []. simpl. now rewrite app_nil_r.
Qed.

Lemma keyframe_insert_grows (frame : Z) (o : marker_object) :
  grows o (keyframe_insert o frame).
Proof.
  repeat split. now exists [(frame, ob_location o)].
Qed.

Lemma animate_sample_grows (direction : string) (data : matrix) (k i : Z)
  (name : string) (n : Z) (objs : list marker_object) :
  Forall2 grows objs (fst (animate_sample direction data k i name n objs)).
Proof.
  unfold animate_sample, bind, lift, lookup_object, modify_object, int_truediv.
  destruct (sample_location direction data n i) as [loc|];
    [|apply Forall2_grows_refl].
  destruct (index_of_name name objs) as [r|]; [|apply Forall2_grows_refl].
  destruct (k =? 0); cbn [fst].
  - apply update_at_grows. intros o. apply set_location_grows.
  - apply (Forall2_grows_trans _ (update_at r (fun o => set_location o loc) objs)).
    + apply update_at_grows. intros o. apply set_location_grows.
    + apply update_at_grows. intros o. apply keyframe_insert_grows.
Qed.

Lemma for_each_grows {X : Type} (body : X -> M unit) :
  (forall x objs, Forall2 grows objs (fst (body x objs))) ->
  forall (xs : list X) (objs : list marker_object),
    Forall2 grows objs (fst (for_each xs body objs)).
Proof.
  intros Hbody. induction xs as [|x xs IH]; intros objs.
  - apply Forall2_grows_refl.
  - cbn [for_each]. unfold bind. pose proof (Hbody x objs) as Hx.
    destruct (body x objs) as [objs1 [[]|e]]; cbn [fst] in *.
    + exact (Forall2_grows_trans _ _ _ Hx (IH objs1)).
    + exact Hx.
Qed.

Lemma animate_marker_grows (direction : string) (data : matrix) (len k : Z)
  (im : Z * string) (objs : list marker_object) :
  Forall2 grows objs (fst (animate_marker direction data len k im objs)).
Proof.
  destruct im as [i m]. unfold animate_marker, bind, lift.
  destruct (first_containing m (map ob_name objs)) as [name|];
    [|apply Forall2_grows_refl].
  destruct (py_range 0 len k) as [ns|]; [|apply Forall2_grows_refl].
  apply for_each_grows. intros n objs1. apply animate_sample_grows.
Qed.

(** X7.  Whatever its outcome (normal return or exception, for any data and
    any names), the loop that animates the markers keeps the objects of the
    collection in place: none is added, removed, reordered, renamed or
    restyled, and the keyframes an object had are still there, in order,
    before the ones recorded. *)
Theorem animation_only_grows_keyframes :
  forall (direction : string) (data : matrix) (len k : Z)
         (ims : list (Z * string)) (objs : list marker_object),
    Forall2 grows objs
      (fst (for_each ims (animate_marker direction data len k) objs)).
Proof.
  intros direction data len k ims objs.
  apply for_each_grows. intros im objs1. apply animate_marker_grows.
Qed.

(** ** Failures of one trajectory *)

(** X8.  When no object of the collection has a name that contains the
    trajectory name, the loop of that trajectory raises [IndexError] and
    leaves the collection as it was. *)
Theorem animate_marker_unresolved :
  forall (direction : string) (data : matrix) (len k i : Z) (m : string)
         (objs : list marker_object),
    first_match m objs = None ->
    animate_marker direction data len k (i, m) objs = (objs, Err IndexError).
Proof.
  intros direction data len k i m objs H.
  unfold animate_marker, bind, lift. now rewrite (first_match_none _ _ H).
Qed.

Lemma animate_marker_unresolved_witness :
  animate_marker "zup" Demo.hip_data 2 1 (2, "Ankle") Demo.hip_objects
  = (Demo.hip_objects, Err IndexError).
Proof.
  apply animate_marker_unresolved. reflexivity.
Defined.

Lemma at2_error (data : matrix) (n c : Z) (e : exn) :
  at2 data n c = Err e -> e = IndexError.
Proof.
  unfold at2. destruct ((n <? 0) || (c <? 0)); [congruence|].
  destruct (nth_error data (Z.to_nat n)) as [row|]; [|congruence].
  destruct (nth_error row (Z.to_nat c)); congruence.
Qed.

Lemma at2_short_row (data : matrix) (row : list Q) (n c : Z) :
  0 <= n -> nth_error data (Z.to_nat n) = Some row ->
  Z.of_nat (List.length row) <= c ->
  at2 data n c = Err IndexError.
Proof.
  intros Hn Hrow Hc. unfold at2. rewrite Hrow.
  replace (nth_error row (Z.to_nat c)) with (@None Q)
    by (symmetry; apply nth_error_None; lia).
  now destruct ((n <? 0) || (c <? 0)).
Qed.

(** A row too short for the third column of trajectory [i] makes the read of
    its triple raise [IndexError], in either axis convention. *)
Lemma sample_location_short_row (direction : string) (data : matrix)
  (row : list Q) (n i : Z) :
  0 <= n -> nth_error data (Z.to_nat n) = Some row ->
  Z.of_nat (List.length row) <= 3 * i + 3 ->
  sample_location direction data n i = Err IndexError.
Proof.
  intros Hn Hrow Hc. pose proof (at2_short_row _ _ _ _ Hn Hrow Hc) as H3.
  unfold sample_location.
  destruct (String.eqb direction "zup").
  - destruct (at2 data n (3 * i + 1)) as [a|e1] eqn:E1; cbn [rbind];
      [|now rewrite (at2_error _ _ _ _ E1)].
    destruct (at2 data n (3 * i + 2)) as [b|e2] eqn:E2; cbn [rbind];
      [|now rewrite (at2_error _ _ _ _ E2)].
    now rewrite H3.
  - destruct (at2 data n (3 * i + 1)) as [a|e1] eqn:E1; cbn [rbind];
      [|now rewrite (at2_error _ _ _ _ E1)].
    now rewrite H3.
Qed.

Lemma retained_indices_head (num_samples k : Z) :
  1 <= num_samples -> 0 < k ->
  exists rest, retained_indices num_samples k = 0 :: rest.
Proof.
  intros HN Hk. pose proof (retained_pos _ _ HN Hk) as Hpos.
  unfold retained_indices. destruct (retained num_samples k) as [|c]; [lia|].
  cbn [seq map]. now eexists.
Qed.

(** X9.  Name and column counts that disagree: when the first row of the
    matrix has no column [3i+3], the loop of trajectory [i] raises
    [IndexError] at its first sample, before it has moved or keyed any
    object. *)
Theorem animate_marker_missing_columns :
  forall (direction : string) (data : matrix) (row0 : list Q) (k i : Z)
         (m : string) (objs : list marker_object) (r : nat),
    0 < k ->
    nth_error data 0 = Some row0 ->
    Z.of_nat (List.length row0) <= 3 * i + 3 ->
    first_match m objs = Some r ->
    animate_marker direction data (Z.of_nat (List.length data)) k (i, m) objs
    = (objs, Err IndexError).
Proof.
  intros direction data row0 k i m objs r Hk Hrow Hshort Hm.
  assert (HN : 1 <= Z.of_nat (List.length data)).
  { destruct data; [discriminate | simpl List.length; lia]. }
  destruct (first_match_spec _ _ _ Hm) as (o & _ & _ & _ & Hf & _).
  destruct (retained_indices_head _ _ HN Hk) as (rest & Hns).
  unfold animate_marker, bind, lift.
  rewrite Hf, (py_range_from_0 _ _ HN Hk), Hns.
  cbn [for_each]. unfold bind, animate_sample, bind, lift.
  now rewrite (sample_location_short_row direction data row0 0 i
                 (Z.le_refl 0) Hrow Hshort).
Qed.

Lemma animate_marker_missing_columns_witness :
  animate_marker "zup" Demo.hip_data 2 1 (3, "Knee") Demo.hip_objects
  = (Demo.hip_objects, Err IndexError).
Proof.
  apply (animate_marker_missing_columns "zup" Demo.hip_data
           [0; 1; 2; 3; 4; 5; 6; 7; 8; 9]%Q 1 3 "Knee" Demo.hip_objects 1).
  - lia.
  - reflexivity.
  - simpl. lia.
  - reflexivity.
Defined.

(** ** Reads that cannot fail *)

Lemma retained_indices_in_range (num_samples k : Z) :
  1 <= num_samples -> 0 < k ->
  Forall (fun n => 0 <= n < num_samples) (retained_indices num_samples k).
Proof.
  intros HN Hk. apply Forall_forall. intros n Hn.
  unfold retained_indices in Hn. apply in_map_iff in Hn as (j & <- & Hj).
  apply in_seq in Hj. unfold retained in Hj.
  assert (H0 : 0 <= (num_samples - 1) / k) by (apply Z.div_pos; lia).
  assert (Hle : Z.of_nat j <= (num_samples - 1) / k) by lia.
  pose proof (Z.mul_div_le (num_samples - 1) k Hk) as Hm.
  split; [lia|]. nia.
Qed.

Lemma at2_in_range (data : matrix) (row : list Q) (n c : Z) :
  0 <= n -> nth_error data (Z.to_nat n) = Some row ->
  0 <= c < Z.of_nat (List.length row) ->
  exists x, at2 data n c = Ok x.
Proof.
  intros Hn Hrow Hc. unfold at2. rewrite Hrow.
  replace ((n <? 0) || (c <? 0)) with false
    by (symmetry; apply orb_false_iff; split; apply Z.ltb_ge; lia).
  destruct (nth_error row (Z.to_nat c)) as [x|] eqn:E; [now exists x|].
  apply nth_error_None in E. lia.
Qed.

Lemma sample_locations_in_range (direction : string) (data : matrix) (i : Z)
  (ns : list Z) :
  0 <= i ->
  forallb (fun row => 3 * i + 3 <? Z.of_nat (List.length row)) data = true ->
  Forall (fun n => 0 <= n < Z.of_nat (List.length data)) ns ->
  exists locs, sample_locations direction data i ns = Ok locs.
Proof.
  intros Hi Hwide Hns. induction Hns as [|n ns Hn _ IH].
  - now exists [].
  - destruct IH as (locs & Hlocs).
    destruct (nth_error data (Z.to_nat n)) as [row|] eqn:Erow;
      [|apply nth_error_None in Erow; lia].
    assert (Hrow : 3 * i + 3 < Z.of_nat (List.length row)).
    { apply Z.ltb_lt.
      exact (proj1 (forallb_forall _ data) Hwide row (nth_error_In _ _ Erow)). }
    destruct (at2_in_range data row n (3 * i + 1)) as (a & Ha);
      [lia | exact Erow | lia |].
    destruct (at2_in_range data row n (3 * i + 2)) as (b & Hb);
      [lia | exact Erow | lia |].
    destruct (at2_in_range data row n (3 * i + 3)) as (c & Hc);
      [lia | exact Erow | lia |].
    exists (axis_remap direction (a, b, c) :: locs).
    cbn [sample_locations].
    rewrite (sample_location_remap direction _ _ _ _ _ _ Ha Hb Hc), Hlocs.
    reflexivity.
Qed.

(** X10.  The retained sample indices are row indices of the matrix, so a
    trajectory can only fail on its columns: when every row has a column
    [3i+3] and the name resolves, the loop of trajectory [i] returns
    normally for any positive stride, having recorded every retained sample
    on the resolved object. *)
Theorem animate_marker_succeeds_on_wide_rows :
  forall (direction : string) (data : matrix) (k i : Z) (m : string)
         (objs : list marker_object) (r : nat),
    0 < k ->
    0 <= i ->
    data <> [] ->
    forallb (fun row => 3 * i + 3 <? Z.of_nat (List.length row)) data = true ->
    first_match m objs = Some r ->
    let num_samples := Z.of_nat (List.length data) in
    Forall (fun n => 0 <= n < num_samples) (retained_indices num_samples k)
    /\ exists locs : list vec3,
         sample_locations direction data i (retained_indices num_samples k)
         = Ok locs
         /\ animate_marker direction data num_samples k (i, m) objs
            = (update_at r
                 (apply_samples k
                    (combine (retained_indices num_samples k) locs))
                 objs,
               Ok tt).
Proof.
  intros direction data k i m objs r Hk Hi Hne Hwide Hm num_samples.
  assert (HN : 1 <= num_samples).
  { unfold num_samples. destruct data; [congruence | simpl List.length; lia]. }
  pose proof (retained_indices_in_range _ _ HN Hk) as Hin.
  split; [exact Hin|].
  destruct (sample_locations_in_range direction data i _ Hi Hwide Hin)
    as (locs & Hlocs).
  exists locs. split; [exact Hlocs|].
  exact (animate_marker_run _ _ _ _ _ _ _ _ _ _ Hm
           (py_range_from_0 _ _ HN Hk) Hlocs).
Qed.

Lemma animate_marker_succeeds_on_wide_rows_witness :
  exists locs : list vec3,
    sample_locations "yup" Demo.hip_data 1 (retained_indices 2 1) = Ok locs
    /\ animate_marker "yup" Demo.hip_data 2 1 (1, "Knee") Demo.hip_objects
       = (update_at 1 (apply_samples 1 (combine (retained_indices 2 1) locs))
            Demo.hip_objects,
          Ok tt).
Proof.
  refine (proj2 (animate_marker_succeeds_on_wide_rows "yup" Demo.hip_data 1 1
                   "Knee" Demo.hip_objects 1 _ _ _ _ _)).
  - lia.
  - lia.
  - discriminate.
  - reflexivity.
  - reflexivity.
Defined.

(** * Whole imports *)

Lemma created_markers_run (host_name : list string -> string -> string)
  (taken names : list string) :
  for_each names
    (fun markerName => addMarker host_name taken (0, 0, 0)%Q markerName COLOR)
    []
  = (created_markers host_name taken names, Ok tt).
Proof.
  destruct (create_markers_run host_name taken names []) as (c & Hrun & _).
  unfold created_markers. now rewrite Hrun.
Qed.

Lemma created_markers_fresh (host_name : list string -> string -> string)
  (taken names : list string) :
  List.length (created_markers host_name taken names) = List.length names
  /\ Forall (fun o => ob_keyframes o = [] /\ ob_location o = (0, 0, 0)%Q)
       (created_markers host_name taken names).
Proof.
  destruct (create_markers_run host_name taken names [])
    as (c & Hrun & Hlen & Hfresh & _).
  unfold created_markers. rewrite Hrun. cbn [fst app]. now split.
Qed.

Lemma total_keyframes_fresh (objs : list marker_object) :
  Forall (fun o => ob_keyframes o = [] /\ ob_location o = (0, 0, 0)%Q) objs ->
  total_keyframes objs = 0%nat.
Proof.
  induction 1 as [|o objs [Hk _] _ IH]; [reflexivity|].
  cbn [total_keyframes]. now rewrite Hk, IH.
Qed.

Lemma py_range_negative (len k : Z) :
  0 <= len -> k < 0 -> py_range 0 len k = Ok [].
Proof.
  intros Hlen Hk. unfold py_range, range_length.
  replace (k =? 0) with false by (symmetry; apply Z.eqb_neq; lia).
  replace (0 <? k) with false by (symmetry; apply Z.ltb_ge; lia).
  replace (len <? 0) with false by (symmetry; apply Z.ltb_ge; lia).
  reflexivity.
Qed.

Lemma for_each_noop {X : Type} (body : X -> M unit) (xs : list X)
  (objs : list marker_object) :
  (forall x, In x xs -> body x objs = (objs, Ok tt)) ->
  for_each xs body objs = (objs, Ok tt).
Proof.
  induction xs as [|x xs IH]; intros H; [reflexivity|].
  cbn [for_each]. unfold bind. rewrite (H x (or_introl eq_refl)).
  apply IH. intros y Hy. apply H. now right.
Qed.

Lemma in_enumerate_from {X : Type} (xs : list X) (i0 i : Z) (x : X) :
  In (i, x) (enumerate_from i0 xs) -> In x xs.
Proof.
  revert i0. induction xs as [|y xs IH]; intros i0; cbn [enumerate_from].
  - intros [].
  - intros [[= _ <-]|H]; [now left | right; exact (IH _ H)].
Qed.

(** X11.  A negative decimation factor (a negative target rate, or time
    stamps that decrease) is not an error: when every trajectory name
    resolves, the import returns normally with the frame rate set and the
    markers created, none of them keyed or moved from the origin. *)
Theorem import_trc_negative_factor_no_keyframes :
  forall (fs : string -> option string)
         (np_loadtxt : string -> nat -> result ndarray)
         (host_name : list string -> string -> string)
         (c3d_import : string -> scene -> scene * result unit)
         (trc_path direction : string) (target_framerate : Z) (s : scene)
         (data : matrix) (names : list string) (len fps k : Z),
    PyStr.endswith trc_path ".trc" = true ->
    load_trc fs np_loadtxt trc_path = Ok (data, names) ->
    frame_rates data target_framerate = Ok (len, fps, k) ->
    k < 0 ->
    let created := created_markers host_name (scene_object_names s) names in
    all_resolve names created = true ->
    import_trc fs np_loadtxt host_name c3d_import trc_path direction
      target_framerate s
    = ({| render_fps := target_framerate;
          scene_collections :=
            (scene_collections s
             ++ [mkCollection
                   (host_name (map coll_name (scene_collections s)) "markers")
                   created])%list |},
       Ok tt)
    /\ total_keyframes created = 0%nat
    /\ Forall (fun o => ob_location o = (0, 0, 0)%Q) created.
Proof.
  intros fs np_loadtxt host_name c3d_import trc_path direction target s
    data names len fps k Hext Hload Hrates Hk created Hres.
  destruct (created_markers_fresh host_name (scene_object_names s) names)
    as [_ Hfresh]. fold created in Hfresh.
  split; [|split].
  - pose proof (frame_rates_inv _ _ _ _ _ Hrates) as (times & _ & Hlen & _).
    unfold import_trc. rewrite Hext, Hload, Hrates.
    unfold create_and_animate. unfold bind at 1.
    change (scene_object_names (set_render_fps s target))
      with (scene_object_names s).
    rewrite created_markers_run. fold created.
    rewrite for_each_noop; [reflexivity|].
    intros [i m] Him. apply in_enumerate_from in Him.
    pose proof (proj1 (forallb_forall _ names) Hres m Him) as Hm.
    cbn beta in Hm.
    destruct (first_match m created) as [r|] eqn:Er; [|discriminate].
    destruct (first_match_spec _ _ _ Er) as (o & _ & _ & _ & Hf & _).
    unfold animate_marker, bind, lift.
    rewrite Hf, py_range_negative by lia. reflexivity.
  - now apply total_keyframes_fresh.
  - eapply Forall_impl; [|exact Hfresh]. now intros o [_ Ho].
Qed.

Lemma import_trc_negative_factor_no_keyframes_witness :
  import_trc Demo2.fs Demo2.np_loadtxt Demo.host_name Demo.c3d_import
    "reversed.trc" "zup" 1 Demo.scene0
  = ({| render_fps := 1;
        scene_collections :=
          [mkCollection "markers" (created_markers Demo.host_name [] ["A"])] |},
     Ok tt).
Proof.
  exact (proj1 (import_trc_negative_factor_no_keyframes Demo2.fs
                  Demo2.np_loadtxt Demo.host_name Demo.c3d_import
                  "reversed.trc" "zup" 1 Demo.scene0
                  (map (fun r => skipn 1 r) Demo2.reversed_rows) ["A"]
                  3 (-2) (-2)
                  eq_refl eq_refl eq_refl eq_refl eq_refl)).
Defined.

(** ** The successful import *)

Lemma first_match_names (m : string) (a b : list marker_object) :
  map ob_name a = map ob_name b -> first_match m a = first_match m b.
Proof.
  revert b. induction a as [|x a IH]; intros [|y b]; cbn [map first_match];
    try discriminate; [reflexivity|].
  intros [= Hxy Hab]. now rewrite Hxy, (IH b Hab).
Qed.

Lemma resolves_to_own_names (ims : list (Z * string))
  (a b : list marker_object) :
  map ob_name a = map ob_name b ->
  resolves_to_own ims a = resolves_to_own ims b.
Proof.
  intros H. unfold resolves_to_own.
  induction ims as [|im ims IH]; cbn [forallb]; [reflexivity|].
  now rewrite IH, (first_match_names _ _ _ H).
Qed.

Lemma update_at_app (pre suf : list marker_object) (o : marker_object)
  (f : marker_object -> marker_object) :
  update_at (List.length pre) f (pre ++ o :: suf) = (pre ++ f o :: suf)%list.
Proof.
  induction pre as [|x pre IH]; simpl; [reflexivity | now rewrite IH].
Qed.

Lemma nth_error_app_length {A : Type} (pre suf : list A) (x : A) :
  nth_error (pre ++ suf) (List.length pre) = Some x ->
  exists suf', suf = x :: suf'.
Proof.
  induction pre as [|y pre IH]; simpl.
  - destruct suf as [|z suf]; [discriminate|]. intros [= ->]. now eexists.
  - exact IH.
Qed.

(** The loop over the trajectories, started on the objects [pre ++ suf] at
    trajectory index [length pre], when every name still to come resolves to
    the object at its own index and every read is in range. *)
Lemma animate_loop_run (direction : string) (data : matrix) (len k : Z)
  (ns : list Z) :
  py_range 0 len k = Ok ns ->
  forall (rest : list string) (pre suf : list marker_object)
         (all_locs : list (list vec3)),
    let ims := enumerate_from (Z.of_nat (List.length pre)) rest in
    resolves_to_own ims (pre ++ suf) = true ->
    all_sample_locations direction data ns ims = Ok all_locs ->
    for_each ims (animate_marker direction data len k) (pre ++ suf)%list
    = ((pre ++ animate_all k ns suf all_locs)%list, Ok tt).
Proof.
  intros Hns. induction rest as [|m rest IH]; intros pre suf all_locs ims.
  - unfold ims. cbn [enumerate_from all_sample_locations for_each].
    intros _ [= <-]. now destruct suf.
  - unfold ims. cbn [enumerate_from all_sample_locations for_each fst].
    unfold resolves_to_own. cbn [forallb fst snd]. fold (resolves_to_own).
    intros Hres Hlocs. apply andb_prop in Hres as [Hm Hrest].
    destruct (first_match m (pre ++ suf)) as [r|] eqn:Er; [|discriminate].
    apply Z.eqb_eq in Hm. apply Nat2Z.inj in Hm. subst r.
    destruct (sample_locations direction data (Z.of_nat (List.length pre)) ns)
      as [locs|] eqn:El; cbn [rbind] in Hlocs; [|discriminate].
    destruct (all_sample_locations direction data ns
                (enumerate_from (Z.of_nat (List.length pre) + 1) rest))
      as [ls|] eqn:Els; cbn [rbind] in Hlocs; [|discriminate].
    injection Hlocs as <-.
    destruct (first_match_spec _ _ _ Er) as (o & Hn & _).
    destruct (nth_error_app_length _ _ _ Hn) as (suf' & ->).
    unfold bind at 1.
    rewrite (animate_marker_run _ _ _ _ _ _ _ _ _ _ Er Hns El).
    rewrite update_at_app.
    set (o' := apply_samples k (combine ns locs) o).
    change (pre ++ o' :: suf')%list with (pre ++ [o'] ++ suf')%list.
    rewrite app_assoc.
    assert (Elen : Z.of_nat (List.length pre) + 1
                   = Z.of_nat (List.length (pre ++ [o']))).
    { rewrite length_app. simpl List.length. lia. }
    rewrite Elen in Els, Hrest |- *.
    rewrite (IH (pre ++ [o'])%list suf' ls).
    + cbn [animate_all]. fold o'. now rewrite <- app_assoc.
    + rewrite <- Hrest. apply resolves_to_own_names.
      rewrite <- app_assoc. rewrite !map_app. cbn [map app].
      unfold o'. now rewrite apply_samples_name.
    + exact Els.
Qed.

(** The import when every step succeeds. *)
Lemma import_trc_run :
  forall (fs : string -> option string)
         (np_loadtxt : string -> nat -> result ndarray)
         (host_name : list string -> string -> string)
         (c3d_import : string -> scene -> scene * result unit)
         (trc_path direction : string) (target_framerate : Z) (s : scene)
         (data : matrix) (names : list string) (len fps k : Z)
         (ns : list Z) (all_locs : list (list vec3)),
    PyStr.endswith trc_path ".trc" = true ->
    load_trc fs np_loadtxt trc_path = Ok (data, names) ->
    frame_rates data target_framerate = Ok (len, fps, k) ->
    py_range 0 len k = Ok ns ->
    let created := created_markers host_name (scene_object_names s) names in
    resolves_to_own (enumerate names) created = true ->
    all_sample_locations direction data ns (enumerate names) = Ok all_locs ->
    import_trc fs np_loadtxt host_name c3d_import trc_path direction
      target_framerate s
    = ({| render_fps := target_framerate;
          scene_collections :=
            (scene_collections s
             ++ [mkCollection
                   (host_name (map coll_name (scene_collections s)) "markers")
                   (animate_all k ns created all_locs)])%list |},
       Ok tt).
Proof.
  intros fs np_loadtxt host_name c3d_import trc_path direction target s
    data names len fps k ns all_locs Hext Hload Hrates Hns created Hres Hlocs.
  unfold import_trc. rewrite Hext, Hload, Hrates.
  unfold create_and_animate. unfold bind at 1.
  change (scene_object_names (set_render_fps s target))
    with (scene_object_names s).
  rewrite created_markers_run. fold created.
  pose proof (animate_loop_run direction data len k ns Hns names [] created
                all_locs Hres Hlocs) as Hrun.
  cbn [app List.length] in Hrun. change (Z.of_nat 0) with 0 in Hrun.
  unfold enumerate. now rewrite Hrun.
Qed.

(** X12.  The import of a ['.trc'] file that loads, with a non-zero
    decimation factor, trajectory names that each resolve to the marker
    created for them, and columns in range for every trajectory, returns
    normally: the scene has the target frame rate and one more collection,
    linked last, whose objects are the created markers, each with the
    retained samples of its own trajectory recorded on it. *)
Theorem import_trc_succeeds :
  forall (fs : string -> option string)
         (np_loadtxt : string -> nat -> result ndarray)
         (host_name : list string -> string -> string)
         (c3d_import : string -> scene -> scene * result unit)
         (trc_path direction : string) (target_framerate : Z) (s : scene)
         (data : matrix) (names : list string) (len fps k : Z)
         (ns : list Z) (all_locs : list (list vec3)),
    PyStr.endswith trc_path ".trc" = true ->
    load_trc fs np_loadtxt trc_path = Ok (data, names) ->
    frame_rates data target_framerate = Ok (len, fps, k) ->
    py_range 0 len k = Ok ns ->
    let created := created_markers host_name (scene_object_names s) names in
    resolves_to_own (enumerate names) created = true ->
    all_sample_locations direction data ns (enumerate names) = Ok all_locs ->
    import_trc fs np_loadtxt host_name c3d_import trc_path direction
      target_framerate s
    = ({| render_fps := target_framerate;
          scene_collections :=
            (scene_collections s
             ++ [mkCollection
                   (host_name (map coll_name (scene_collections s)) "markers")
                   (animate_all k ns created all_locs)])%list |},
       Ok tt).
Proof.
  intros fs np_loadtxt host_name c3d_import trc_path direction target s
    data names len fps k ns all_locs Hext Hload Hrates Hns created Hres Hlocs.
  exact (import_trc_run fs np_loadtxt host_name c3d_import trc_path direction
           target s data names len fps k ns all_locs
           Hext Hload Hrates Hns Hres Hlocs).
Qed.

Lemma import_trc_succeeds_witness :
  import_trc Demo.fs Demo.np_loadtxt Demo.host_name Demo.c3d_import
    "demo.trc" "zup" 1 Demo.scene0
  = ({| render_fps := 1;
        scene_collections :=
          [mkCollection "markers"
             (animate_all 2 [0; 2]
                (created_markers Demo.host_name [] ["A"; "B"])
                [[(1, - (3), 2); (13, - (15), 14)];
                 [(4, - (6), 5); (16, - (18), 17)]]%Q)] |},
     Ok tt).
Proof.
  exact (import_trc_succeeds Demo.fs Demo.np_loadtxt Demo.host_name
           Demo.c3d_import "demo.trc" "zup" 1 Demo.scene0
           (map (fun r => skipn 1 r) Demo.trc_rows) ["A"; "B"] 3 2 2 [0; 2]
           [[(1, - (3), 2); (13, - (15), 14)];
            [(4, - (6), 5); (16, - (18), 17)]]%Q
           eq_refl eq_refl eq_refl eq_refl eq_refl eq_refl).
Defined.

Lemma sample_location_inv (direction : string) (data : matrix) (n i : Z)
  (loc : vec3) :
  sample_location direction data n i = Ok loc ->
  exists a b c,
    at2 data n (3 * i + 1) = Ok a
    /\ at2 data n (3 * i + 2) = Ok b
    /\ at2 data n (3 * i + 3) = Ok c
    /\ loc = axis_remap direction (a, b, c).
Proof.
  unfold sample_location, axis_remap.
  destruct (String.eqb direction "zup").
  - destruct (at2 data n (3 * i + 1)) as [a|]; cbn [rbind]; [|discriminate].
    destruct (at2 data n (3 * i + 2)) as [b|]; cbn [rbind]; [|discriminate].
    destruct (at2 data n (3 * i + 3)) as [c|]; cbn [rbind]; [|discriminate].
    intros [= <-]. now exists a, b, c.
  - destruct (at2 data n (3 * i + 1)) as [a|]; cbn [rbind]; [|discriminate].
    destruct (at2 data n (3 * i + 3)) as [c|]; cbn [rbind]; [|discriminate].
    destruct (at2 data n (3 * i + 2)) as [b|]; cbn [rbind]; [|discriminate].
    intros [= <-]. now exists a, b, c.
Qed.

Lemma sample_locations_nth (direction : string) (data : matrix) (i : Z)
  (ns : list Z) (locs : list vec3) (j : nat) (n : Z) :
  sample_locations direction data i ns = Ok locs ->
  nth_error ns j = Some n ->
  exists loc,
    nth_error locs j = Some loc
    /\ nth_error (combine ns locs) j = Some (n, loc)
    /\ sample_location direction data n i = Ok loc.
Proof.
  revert locs j. induction ns as [|n0 ns IH]; intros locs j;
    cbn [sample_locations].
  - intros _ H. now destruct j.
  - destruct (sample_location direction data n0 i) as [loc0|] eqn:E0;
      cbn [rbind]; [|discriminate].
    destruct (sample_locations direction data i ns) as [ls|]; cbn [rbind];
      [|discriminate].
    intros [= <-]. destruct j as [|j]; cbn [nth_error combine].
    + intros [= <-]. now exists loc0.
    + intros Hj. exact (IH ls j eq_refl Hj).
Qed.

Lemma all_sample_locations_nth (direction : string) (data : matrix)
  (ns : list Z) (names : list string) :
  forall (i0 : Z) (all_locs : list (list vec3)) (i : nat),
    all_sample_locations direction data ns (enumerate_from i0 names)
    = Ok all_locs ->
    (i < List.length names)%nat ->
    exists locs,
      nth_error all_locs i = Some locs
      /\ sample_locations direction data (i0 + Z.of_nat i) ns = Ok locs.
Proof.
  induction names as [|m names IH]; intros i0 all_locs i;
    cbn [enumerate_from all_sample_locations fst List.length].
  - intros _ H. lia.
  - destruct (sample_locations direction data i0 ns) as [locs0|] eqn:E0;
      cbn [rbind]; [|discriminate].
    destruct (all_sample_locations direction data ns
                (enumerate_from (i0 + 1) names)) as [ls|] eqn:Els;
      cbn [rbind]; [|discriminate].
    intros [= <-] Hi. destruct i as [|i]; cbn [nth_error].
    + exists locs0. now rewrite Z.add_0_r.
    + destruct (IH (i0 + 1) ls i Els) as (locs & Hn & Hl); [lia|].
      exists locs. split; [exact Hn|].
      now replace (i0 + Z.of_nat (S i)) with (i0 + 1 + Z.of_nat i) by lia.
Qed.

Lemma animate_all_nth (k : Z) (ns : list Z) :
  forall (objs : list marker_object) (all_locs : list (list vec3)) (i : nat)
         (o : marker_object) (locs : list vec3),
    nth_error objs i = Some o ->
    nth_error all_locs i = Some locs ->
    nth_error (animate_all k ns objs all_locs) i
    = Some (apply_samples k (combine ns locs) o).
Proof.
  induction objs as [|x objs IH]; intros [|ls0 ls] [|i] o locs;
    cbn [nth_error animate_all]; try discriminate.
  - now intros [= ->] [= ->].
  - apply IH.
Qed.

Lemma animate_all_length (k : Z) (ns : list Z) :
  forall (objs : list marker_object) (all_locs : list (list vec3)),
    List.length (animate_all k ns objs all_locs) = List.length objs.
Proof.
  induction objs as [|o objs IH]; intros [|locs ls]; cbn [animate_all];
    try reflexivity.
  cbn [List.length]. now rewrite IH.
Qed.

(** The keyframes of the marker at position [i] once every marker has been
    given the samples of its own trajectory. *)
Lemma animate_all_keyframes
  (host_name : list string -> string -> string)
  (taken names : list string) (direction : string) (data : matrix)
  (k : Z) (ns : list Z) (all_locs : list (list vec3)) (i : nat) :
  all_sample_locations direction data ns (enumerate names) = Ok all_locs ->
  (i < List.length names)%nat ->
  exists o' : marker_object,
    nth_error (animate_all k ns (created_markers host_name taken names)
                 all_locs) i
    = Some o'
    /\ List.length (ob_keyframes o') = List.length ns
    /\ (forall (j : nat) (n : Z),
           nth_error ns j = Some n ->
           exists a b c : Q,
             at2 data n (3 * Z.of_nat i + 1) = Ok a
             /\ at2 data n (3 * Z.of_nat i + 2) = Ok b
             /\ at2 data n (3 * Z.of_nat i + 3) = Ok c
             /\ nth_error (ob_keyframes o') j
                = Some (Z.quot n k + 1, axis_remap direction (a, b, c))).
Proof.
  intros Hlocs Hi.
  destruct (all_sample_locations_nth direction data ns names 0 all_locs i
              Hlocs Hi) as (locs & Hn & Hl).
  rewrite Z.add_0_l in Hl.
  destruct (created_markers_fresh host_name taken names) as [Hlen Hfresh].
  destruct (nth_error (created_markers host_name taken names) i) as [o|] eqn:Eo;
    [|apply nth_error_None in Eo; lia].
  assert (Hk : ob_keyframes o = []).
  { exact (proj1 (proj1 (Forall_forall _ _) Hfresh o (nth_error_In _ _ Eo))). }
  exists (apply_samples k (combine ns locs) o).
  split; [exact (animate_all_nth k ns _ _ _ _ _ Eo Hn)|].
  rewrite apply_samples_keyframes, Hk. cbn [app]. split.
  - rewrite length_map, length_combine.
    rewrite (sample_locations_length _ _ _ _ _ Hl). apply Nat.min_id.
  - intros j n Hj.
    destruct (sample_locations_nth _ _ _ _ _ _ _ Hl Hj) as (loc & _ & Hc & Hs).
    destruct (sample_location_inv _ _ _ _ _ Hs) as (a & b & c & Ha & Hb & Hc' & ->).
    exists a, b, c. repeat split; try assumption.
    rewrite nth_error_map, Hc. reflexivity.
Qed.

(** X13.  What [import_trc] leaves on each marker.  The import of a ['.trc']
    file that loads, with a non-zero decimation factor, names that each
    resolve to the marker created for them and columns in range, returns
    normally with one more collection, which holds one object per trajectory
    name; the object at position [i] has one keyframe per retained sample
    and no other, the [j]-th one at frame [int(n / k) + 1] for the [j]-th
    retained sample [n], with the triple of columns [3i+1 .. 3i+3] of row
    [n] remapped to the axis convention. *)
Theorem imported_marker_keyframes :
  forall (fs : string -> option string)
         (np_loadtxt : string -> nat -> result ndarray)
         (host_name : list string -> string -> string)
         (c3d_import : string -> scene -> scene * result unit)
         (trc_path direction : string) (target_framerate : Z) (s : scene)
         (data : matrix) (names : list string) (len fps k : Z)
         (ns : list Z) (all_locs : list (list vec3)),
    PyStr.endswith trc_path ".trc" = true ->
    load_trc fs np_loadtxt trc_path = Ok (data, names) ->
    frame_rates data target_framerate = Ok (len, fps, k) ->
    py_range 0 len k = Ok ns ->
    resolves_to_own (enumerate names)
      (created_markers host_name (scene_object_names s) names) = true ->
    all_sample_locations direction data ns (enumerate names) = Ok all_locs ->
    exists objs : list marker_object,
      import_trc fs np_loadtxt host_name c3d_import trc_path direction
        target_framerate s
      = ({| render_fps := target_framerate;
            scene_collections :=
              (scene_collections s
               ++ [mkCollection
                     (host_name (map coll_name (scene_collections s)) "markers")
                     objs])%list |},
         Ok tt)
      /\ List.length objs = List.length names
      /\ (forall i : nat,
             (i < List.length names)%nat ->
             exists o' : marker_object,
               nth_error objs i = Some o'
               /\ List.length (ob_keyframes o') = List.length ns
               /\ (forall (j : nat) (n : Z),
                      nth_error ns j = Some n ->
                      exists a b c : Q,
                        at2 data n (3 * Z.of_nat i + 1) = Ok a
                        /\ at2 data n (3 * Z.of_nat i + 2) = Ok b
                        /\ at2 data n (3 * Z.of_nat i + 3) = Ok c
                        /\ nth_error (ob_keyframes o') j
                           = Some (Z.quot n k + 1,
                                   axis_remap direction (a, b, c)))).
Proof.
  intros fs np_loadtxt host_name c3d_import trc_path direction target s
    data names len fps k ns all_locs Hext Hload Hrates Hns Hres Hlocs.
  exists (animate_all k ns
            (created_markers host_name (scene_object_names s) names) all_locs).
  split; [|split].
  - exact (import_trc_run fs np_loadtxt host_name c3d_import trc_path direction
             target s data names len fps k ns all_locs
             Hext Hload Hrates Hns Hres Hlocs).
  - rewrite animate_all_length.
    exact (proj1 (created_markers_fresh host_name (scene_object_names s) names)).
  - intros i Hi.
    exact (animate_all_keyframes host_name (scene_object_names s) names
             direction data k ns all_locs i Hlocs Hi).
Qed.

Lemma imported_marker_keyframes_witness :
  exists objs : list marker_object,
    import_trc Demo.fs Demo.np_loadtxt Demo.host_name Demo.c3d_import
      "demo.trc" "zup" 1 Demo.scene0
    = ({| render_fps := 1;
          scene_collections := [mkCollection "markers" objs] |}, Ok tt)
    /\ List.length objs = 2%nat
    /\ exists o' : marker_object,
         nth_error objs 1 = Some o'
         /\ List.length (ob_keyframes o') = 2%nat.
Proof.
  destruct (imported_marker_keyframes Demo.fs Demo.np_loadtxt Demo.host_name
              Demo.c3d_import "demo.trc" "zup" 1 Demo.scene0
              (map (fun r => skipn 1 r) Demo.trc_rows) ["A"; "B"] 3 2 2 [0; 2]
              [[(1, - (3), 2); (13, - (15), 14)];
               [(4, - (6), 5); (16, - (18), 17)]]%Q
              eq_refl eq_refl eq_refl eq_refl eq_refl eq_refl)
    as (objs & Hrun & Hlen & Hkeys).
  exists objs. split; [exact Hrun|]. split; [exact Hlen|].
  destruct (Hkeys 1%nat) as (o' & Hn & Hk & _); [simpl; lia|].
  exists o'. split; [exact Hn | exact Hk].
Defined.

(** ** Importing again *)

Lemma apply_samples_motion (k : Z) (nls : list (Z * vec3))
  (o1 o2 : marker_object) :
  motion o1 = motion o2 ->
  motion (apply_samples k nls o1) = motion (apply_samples k nls o2).
Proof.
  revert o1 o2. induction nls as [|nl nls IH]; intros o1 o2 H; [exact H|].
  change (motion (apply_samples k nls (record_sample k o1 nl))
          = motion (apply_samples k nls (record_sample k o2 nl))).
  apply IH. unfold motion in *. injection H as _ Hk.
  cbn. now rewrite Hk.
Qed.

Lemma animate_all_motion (k : Z) (ns : list Z) :
  forall (a b : list marker_object) (ls : list (list vec3)),
    map motion a = map motion b ->
    map motion (animate_all k ns a ls) = map motion (animate_all k ns b ls).
Proof.
  induction a as [|x a IH]; intros [|y b] ls; cbn [map]; try discriminate.
  - reflexivity.
  - intros H.
    assert (Hxy : motion x = motion y) by congruence.
    assert (Hab : map motion a = map motion b) by congruence.
    destruct ls as [|locs ls]; cbn [animate_all map].
    + now rewrite Hxy, Hab.
    + now rewrite (apply_samples_motion _ _ _ _ Hxy), (IH b ls Hab).
Qed.

Lemma fresh_motion (objs : list marker_object) :
  Forall (fun o => ob_keyframes o = [] /\ ob_location o = (0, 0, 0)%Q) objs ->
  map motion objs = repeat ((0, 0, 0)%Q, []) (List.length objs).
Proof.
  induction 1 as [|o objs [Hk Hl] _ IH]; [reflexivity|].
  cbn [map List.length repeat]. unfold motion at 1. now rewrite Hk, Hl, IH.
Qed.

(** X14.  The motion an import gives its markers does not depend on the
    scene it is run in: two successful imports of the same file with the
    same parameters, in any two scenes (the second one may be the scene the
    first import left), end with collections whose objects have, position by
    position, the same location and the same keyframes. *)
Theorem import_trc_motion_independent_of_scene :
  forall (fs : string -> option string)
         (np_loadtxt : string -> nat -> result ndarray)
         (host_name : list string -> string -> string)
         (c3d_import : string -> scene -> scene * result unit)
         (trc_path direction : string) (target_framerate : Z)
         (s1 s2 : scene)
         (data : matrix) (names : list string) (len fps k : Z)
         (ns : list Z) (all_locs : list (list vec3)),
    PyStr.endswith trc_path ".trc" = true ->
    load_trc fs np_loadtxt trc_path = Ok (data, names) ->
    frame_rates data target_framerate = Ok (len, fps, k) ->
    py_range 0 len k = Ok ns ->
    all_sample_locations direction data ns (enumerate names) = Ok all_locs ->
    resolves_to_own (enumerate names)
      (created_markers host_name (scene_object_names s1) names) = true ->
    resolves_to_own (enumerate names)
      (created_markers host_name (scene_object_names s2) names) = true ->
    exists c1 c2 : collection,
      import_trc fs np_loadtxt host_name c3d_import trc_path direction
        target_framerate s1
      = ({| render_fps := target_framerate;
            scene_collections := (scene_collections s1 ++ [c1])%list |},
         Ok tt)
      /\ import_trc fs np_loadtxt host_name c3d_import trc_path direction
           target_framerate s2
         = ({| render_fps := target_framerate;
               scene_collections := (scene_collections s2 ++ [c2])%list |},
            Ok tt)
      /\ map motion (coll_objects c1) = map motion (coll_objects c2).
Proof.
  intros fs np_loadtxt host_name c3d_import trc_path direction target s1 s2
    data names len fps k ns all_locs Hext Hload Hrates Hns Hlocs Hr1 Hr2.
  eexists. eexists. split; [|split].
  - exact (import_trc_run fs np_loadtxt host_name c3d_import trc_path
             direction target s1 data names len fps k ns all_locs
             Hext Hload Hrates Hns Hr1 Hlocs).
  - exact (import_trc_run fs np_loadtxt host_name c3d_import trc_path
             direction target s2 data names len fps k ns all_locs
             Hext Hload Hrates Hns Hr2 Hlocs).
  - cbn [coll_objects]. apply animate_all_motion.
    destruct (created_markers_fresh host_name (scene_object_names s1) names)
      as [Hl1 Hf1].
    destruct (created_markers_fresh host_name (scene_object_names s2) names)
      as [Hl2 Hf2].
    now rewrite (fresh_motion _ Hf1), (fresh_motion _ Hf2), Hl1, Hl2.
Qed.

Lemma import_trc_motion_independent_of_scene_witness :
  exists c1 c2 : collection,
    import_trc Demo.fs Demo.np_loadtxt Demo.host_name Demo.c3d_import
      "demo.trc" "zup" 1 Demo.scene0
    = ({| render_fps := 1; scene_collections := [c1] |}, Ok tt)
    /\ import_trc Demo.fs Demo.np_loadtxt Demo.host_name Demo.c3d_import
         "demo.trc" "zup" 1
         {| render_fps := 1; scene_collections := [c1] |}
       = ({| render_fps := 1; scene_collections := [c1; c2] |}, Ok tt)
    /\ map ob_name (coll_objects c1) = ["A"; "B"]
    /\ map ob_name (coll_objects c2) = ["A.001"; "B.001"]
    /\ map motion (coll_objects c1) = map motion (coll_objects c2).
Proof.
  pose (c1 := mkCollection "markers"
                (animate_all 2 [0; 2]
                   (created_markers Demo.host_name [] ["A"; "B"])
                   [[(1, - (3), 2); (13, - (15), 14)];
                    [(4, - (6), 5); (16, - (18), 17)]]%Q)).
  destruct (import_trc_motion_independent_of_scene Demo.fs Demo.np_loadtxt
              Demo.host_name Demo.c3d_import "demo.trc" "zup" 1
              Demo.scene0 {| render_fps := 1; scene_collections := [c1] |}
              (map (fun r => skipn 1 r) Demo.trc_rows) ["A"; "B"] 3 2 2
              [0; 2]
              [[(1, - (3), 2); (13, - (15), 14)];
               [(4, - (6), 5); (16, - (18), 17)]]%Q
              eq_refl eq_refl eq_refl eq_refl eq_refl eq_refl eq_refl)
    as (d1 & d2 & H1 & H2 & Hm).
  assert (E1 : d1 = c1).
  { assert (H : import_trc Demo.fs Demo.np_loadtxt Demo.host_name
                  Demo.c3d_import "demo.trc" "zup" 1 Demo.scene0
                = ({| render_fps := 1; scene_collections := [c1] |}, Ok tt))
      by reflexivity.
    rewrite H in H1. now injection H1 as <-. }
  subst d1.
  assert (E2 : d2 = mkCollection "markers.001"
                     (animate_all 2 [0; 2]
                        (created_markers Demo.host_name ["A"; "B"] ["A"; "B"])
                        [[(1, - (3), 2); (13, - (15), 14)];
                         [(4, - (6), 5); (16, - (18), 17)]]%Q)).
  { assert (H : import_trc Demo.fs Demo.np_loadtxt Demo.host_name
                  Demo.c3d_import "demo.trc" "zup" 1
                  {| render_fps := 1; scene_collections := [c1] |}
                = ({| render_fps := 1;
                      scene_collections :=
                        [c1;
                         mkCollection "markers.001"
                           (animate_all 2 [0; 2]
                              (created_markers Demo.host_name ["A"; "B"]
                                 ["A"; "B"])
                              [[(1, - (3), 2); (13, - (15), 14)];
                               [(4, - (6), 5); (16, - (18), 17)]]%Q)] |},
                   Ok tt))
      by reflexivity.
    rewrite H in H2. now injection H2 as <-. }
  exists c1, d2. split; [exact H1|]. split; [exact H2|].
  split; [reflexivity|]. split; [now rewrite E2|]. exact Hm.
Defined.

(** * Inputs on which the import is sure to succeed *)

Lemma prefix_refl (s : string) : prefix s s = true.
Proof.
  induction s as [|c s IH]; [reflexivity|].
  cbn [prefix]. destruct (ascii_dec c c); [exact IH | congruence].
Qed.

Lemma contains_refl (s : string) : PyStr.contains s s = true.
Proof.
  destruct s; cbn [PyStr.contains]; now rewrite prefix_refl.
Qed.

Lemma first_match_app (m : string) (pre suf : list marker_object)
  (o : marker_object) :
  forallb (fun e => negb (PyStr.contains m e)) (map ob_name pre) = true ->
  PyStr.contains m (ob_name o) = true ->
  first_match m (pre ++ o :: suf) = Some (List.length pre).
Proof.
  intros Hpre Ho. induction pre as [|x pre IH]; cbn [app first_match].
  - now rewrite Ho.
  - cbn [map forallb] in Hpre. apply andb_prop in Hpre as [Hx Hpre].
    apply negb_true_iff in Hx. rewrite Hx, (IH Hpre). reflexivity.
Qed.

Lemma resolves_to_own_distinct (names : list string) :
  forall pre suf : list marker_object,
    map ob_name suf = names ->
    no_name_in_earlier (map ob_name pre) names = true ->
    resolves_to_own (enumerate_from (Z.of_nat (List.length pre)) names)
      (pre ++ suf)
    = true.
Proof.
  induction names as [|m rest IH]; intros pre suf Hsuf Hno; [reflexivity|].
  destruct suf as [|o suf]; [discriminate|].
  cbn [map] in Hsuf. injection Hsuf as Ho Hsuf.
  cbn [no_name_in_earlier] in Hno. apply andb_prop in Hno as [Hearlier Hrest].
  cbn [enumerate_from]. unfold resolves_to_own. cbn [forallb fst snd].
  fold resolves_to_own.
  rewrite (first_match_app m pre suf o Hearlier)
    by (rewrite Ho; apply contains_refl).
  rewrite Z.eqb_refl. cbn [andb].
  replace (Z.of_nat (List.length pre) + 1)
    with (Z.of_nat (List.length (pre ++ [o])))
    by (rewrite length_app; simpl List.length; lia).
  change (pre ++ o :: suf)%list with (pre ++ [o] ++ suf)%list.
  rewrite app_assoc. apply IH; [exact Hsuf|].
  rewrite map_app. cbn [map]. now rewrite Ho.
Qed.

Lemma distinct_names_resolve_to_own_aux
  (host_name : list string -> string -> string) (taken names : list string) :
  map ob_name (created_markers host_name taken names) = names ->
  no_name_in_earlier [] names = true ->
  resolves_to_own (enumerate names) (created_markers host_name taken names)
  = true.
Proof.
  intros Hnames Hno. exact (resolves_to_own_distinct names [] _ Hnames Hno).
Qed.

Lemma resolves_to_own_nth (names : list string) :
  forall (i0 : Z) (objs : list marker_object) (i : nat) (m : string),
    resolves_to_own (enumerate_from i0 names) objs = true ->
    nth_error names i = Some m ->
    exists r : nat,
      first_match m objs = Some r /\ Z.of_nat r = i0 + Z.of_nat i.
Proof.
  induction names as [|m0 names IH]; intros i0 objs i m Hres Hi.
  - now destruct i.
  - cbn [enumerate_from] in Hres. unfold resolves_to_own in Hres.
    cbn [forallb fst snd] in Hres. apply andb_prop in Hres as [H0 Hrest].
    destruct i as [|i]; cbn [nth_error] in Hi.
    + injection Hi as <-.
      destruct (first_match m0 objs) as [r|]; [|discriminate].
      exists r. split; [reflexivity|]. apply Z.eqb_eq in H0. lia.
    + destruct (IH (i0 + 1) objs i m Hrest Hi) as (r & Hr & Hri).
      exists r. split; [exact Hr | lia].
Qed.

(** X15.  Names that are safe for the substring lookup.  When the objects of
    the marker collection carry the trajectory names, in order (the host
    gave every marker the name asked for), and no trajectory name occurs
    inside the name of an earlier trajectory, lines 141-142 and 153 resolve
    the trajectory at position [i] to the object at position [i], and the
    loop of that trajectory records its samples on that object. *)
Theorem distinct_names_resolve_to_own :
  forall (objs : list marker_object) (names : list string) (i : nat)
         (m : string),
    map ob_name objs = names ->
    no_name_in_earlier [] names = true ->
    nth_error names i = Some m ->
    first_containing m (map ob_name objs) = Ok m
    /\ (m' <- lift (first_containing m (map ob_name objs)) ;; lookup_object m')
         objs
       = (objs, Ok i)
    /\ (forall (direction : string) (data : matrix) (len k : Z)
               (ns : list Z) (locs : list vec3),
           py_range 0 len k = Ok ns ->
           sample_locations direction data (Z.of_nat i) ns = Ok locs ->
           animate_marker direction data len k (Z.of_nat i, m) objs
           = (update_at i (apply_samples k (combine ns locs)) objs, Ok tt)).
Proof.
  intros objs names i m Hnames Hno Hi.
  pose proof (resolves_to_own_distinct names [] objs Hnames Hno) as Hres.
  cbn [List.length app] in Hres. change (Z.of_nat 0) with 0 in Hres.
  destruct (resolves_to_own_nth names 0 objs i m Hres Hi) as (r & Hr & Hri).
  assert (r = i) by lia. subst r.
  destruct (first_match_spec _ _ _ Hr) as (o & Hn & _ & _ & Hf & Hidx).
  assert (Ho : ob_name o = m).
  { rewrite <- Hnames in Hi. rewrite nth_error_map, Hn in Hi.
    now injection Hi. }
  rewrite Ho in Hf, Hidx.
  split; [exact Hf|]. split.
  - unfold bind, lift, lookup_object. now rewrite Hf, Hidx.
  - intros direction data len k ns locs Hns Hlocs.
    exact (animate_marker_run _ _ _ _ _ _ _ _ _ _ Hr Hns Hlocs).
Qed.

Lemma distinct_names_resolve_to_own_witness :
  (m' <- lift (first_containing "Knee"
                 (map ob_name
                    (created_markers Demo.host_name []
                       ["Hip"; "Knee"; "LeftKnee"]))) ;;
   lookup_object m')
    (created_markers Demo.host_name [] ["Hip"; "Knee"; "LeftKnee"])
  = (created_markers Demo.host_name [] ["Hip"; "Knee"; "LeftKnee"],
     Ok 1%nat).
Proof.
  exact (proj1 (proj2 (distinct_names_resolve_to_own
                         (created_markers Demo.host_name []
                            ["Hip"; "Knee"; "LeftKnee"])
                         ["Hip"; "Knee"; "LeftKnee"] 1 "Knee"
                         eq_refl eq_refl eq_refl))).
Defined.

Lemma all_sample_locations_in_range (direction : string) (data : matrix)
  (ns : list Z) :
  Forall (fun n => 0 <= n < Z.of_nat (List.length data)) ns ->
  forall (rest : list string) (i0 : Z),
    0 <= i0 ->
    forallb (fun row => 3 * (i0 + Z.of_nat (List.length rest))
                        <? Z.of_nat (List.length row)) data = true ->
    exists all_locs,
      all_sample_locations direction data ns (enumerate_from i0 rest)
      = Ok all_locs
      /\ List.length all_locs = List.length rest
      /\ Forall (fun locs => List.length locs = List.length ns) all_locs.
Proof.
  intros Hns. induction rest as [|m rest IH]; intros i0 Hi0 Hwide.
  - exists []. repeat split; constructor.
  - assert (Hw1 : forallb (fun row => 3 * i0 + 3 <? Z.of_nat (List.length row))
                    data = true).
    { apply forallb_forall. intros row Hrow. apply Z.ltb_lt.
      pose proof (proj1 (forallb_forall _ data) Hwide row Hrow) as H.
      apply Z.ltb_lt in H. simpl List.length in H. lia. }
    assert (Hw2 : forallb (fun row => 3 * (i0 + 1 + Z.of_nat (List.length rest))
                                      <? Z.of_nat (List.length row))
                    data = true).
    { apply forallb_forall. intros row Hrow. apply Z.ltb_lt.
      pose proof (proj1 (forallb_forall _ data) Hwide row Hrow) as H.
      apply Z.ltb_lt in H. simpl List.length in H. lia. }
    destruct (sample_locations_in_range direction data i0 ns Hi0 Hw1 Hns)
      as (locs & Hlocs).
    destruct (IH (i0 + 1) ltac:(lia) Hw2) as (ls & Hls & Hlen & Hall).
    exists (locs :: ls). cbn [enumerate_from all_sample_locations fst].
    rewrite Hlocs, Hls. cbn [rbind]. repeat split.
    + simpl. now rewrite Hlen.
    + constructor; [|exact Hall].
      exact (sample_locations_length _ _ _ _ _ Hlocs).
Qed.

Lemma total_keyframes_animate_all (k : Z) (ns : list Z) :
  forall (objs : list marker_object) (all_locs : list (list vec3)),
    Forall (fun o => ob_keyframes o = [] /\ ob_location o = (0, 0, 0)%Q) objs ->
    List.length all_locs = List.length objs ->
    Forall (fun locs => List.length locs = List.length ns) all_locs ->
    total_keyframes (animate_all k ns objs all_locs)
    = (List.length objs * List.length ns)%nat.
Proof.
  induction objs as [|o objs IH]; intros [|locs ls] Hfresh Hlen Hall;
    try discriminate; [reflexivity|].
  inversion Hfresh as [|? ? [Hk _] Hfresh']; subst.
  inversion Hall as [|? ? Hl Hall']; subst.
  cbn [animate_all total_keyframes List.length].
  rewrite apply_samples_keyframes, Hk. cbn [app].
  rewrite length_map, length_combine, Hl, Nat.min_id.
  rewrite (IH ls Hfresh'); [lia | | exact Hall'].
  simpl in Hlen. lia.
Qed.

(** X16.  Total correctness on well-formed input.  For a ['.trc'] file that
    loads, with a positive decimation factor, rows that have a column for
    every trajectory (more than [3 * len(names)] entries), a host that gives
    the markers the names asked for, and no trajectory name inside an earlier
    one, the import returns normally; the new collection holds the markers
    animated each with its own trajectory, and
    [len(names) * (floor((num_samples - 1) / k) + 1)] keyframes in all. *)
Theorem import_trc_total_on_well_formed :
  forall (fs : string -> option string)
         (np_loadtxt : string -> nat -> result ndarray)
         (host_name : list string -> string -> string)
         (c3d_import : string -> scene -> scene * result unit)
         (trc_path direction : string) (target_framerate : Z) (s : scene)
         (data : matrix) (names : list string) (len fps k : Z),
    PyStr.endswith trc_path ".trc" = true ->
    load_trc fs np_loadtxt trc_path = Ok (data, names) ->
    frame_rates data target_framerate = Ok (len, fps, k) ->
    0 < k ->
    forallb (fun row => 3 * Z.of_nat (List.length names)
                        <? Z.of_nat (List.length row)) data = true ->
    let created := created_markers host_name (scene_object_names s) names in
    map ob_name created = names ->
    no_name_in_earlier [] names = true ->
    exists all_locs : list (list vec3),
      let ns := retained_indices len k in
      let objs := animate_all k ns created all_locs in
      all_sample_locations direction data ns (enumerate names) = Ok all_locs
      /\ import_trc fs np_loadtxt host_name c3d_import trc_path direction
           target_framerate s
         = ({| render_fps := target_framerate;
               scene_collections :=
                 (scene_collections s
                  ++ [mkCollection
                        (host_name (map coll_name (scene_collections s))
                           "markers")
                        objs])%list |},
            Ok tt)
      /\ total_keyframes objs
         = (List.length names * Z.to_nat ((len - 1) / k + 1))%nat.
Proof.
  intros fs np_loadtxt host_name c3d_import trc_path direction target s
    data names len fps k Hext Hload Hrates Hk Hwide created Hnames Hno.
  pose proof (frame_rates_inv _ _ _ _ _ Hrates) as (times & Hcol & Hlen & Hfps & _).
  pose proof (column0_length _ _ Hcol) as Hrows.
  assert (HN : 1 <= len).
  { rewrite Hlen. destruct times; [discriminate Hfps | simpl List.length; lia]. }
  pose proof (py_range_from_0 _ _ HN Hk) as Hns.
  assert (Hin : Forall (fun n => 0 <= n < Z.of_nat (List.length data))
                  (retained_indices len k)).
  { rewrite <- Hrows, <- Hlen. exact (retained_indices_in_range _ _ HN Hk). }
  destruct (all_sample_locations_in_range direction data
              (retained_indices len k) Hin names 0 (Z.le_refl 0) Hwide)
    as (all_locs & Hlocs & Hal & Hall).
  exists all_locs. cbv zeta. split; [exact Hlocs|]. split.
  - exact (import_trc_run fs np_loadtxt host_name c3d_import trc_path
             direction target s data names len fps k _ all_locs
             Hext Hload Hrates Hns
             (distinct_names_resolve_to_own_aux host_name
                (scene_object_names s) names Hnames Hno)
             Hlocs).
  - destruct (created_markers_fresh host_name (scene_object_names s) names)
      as [Hcl Hfresh].
    fold created in Hcl, Hfresh.
    rewrite (total_keyframes_animate_all k _ created all_locs Hfresh)
      by (congruence || exact Hall).
    now rewrite Hcl, retained_indices_length.
Qed.

Lemma import_trc_total_on_well_formed_witness :
  exists objs : list marker_object,
    import_trc Demo.fs Demo.np_loadtxt Demo.host_name Demo.c3d_import
      "demo.trc" "zup" 1 Demo.scene0
    = ({| render_fps := 1;
          scene_collections := [mkCollection "markers" objs] |}, Ok tt)
    /\ total_keyframes objs = 4%nat.
Proof.
  destruct (import_trc_total_on_well_formed Demo.fs Demo.np_loadtxt
              Demo.host_name Demo.c3d_import "demo.trc" "zup" 1 Demo.scene0
              (map (fun r => skipn 1 r) Demo.trc_rows) ["A"; "B"] 3 2 2
              eq_refl eq_refl eq_refl eq_refl eq_refl eq_refl eq_refl)
    as (all_locs & _ & Hrun & Htotal).
  eexists. split; [exact Hrun | exact Htotal].
Defined.

(** * The markers as they are created *)

Lemma create_loop_nth (host_name : list string -> string -> string)
  (taken : list string) :
  forall (names : list string) (objs0 : list marker_object) (i : nat)
         (m : string),
    nth_error names i = Some m ->
    let objs :=
      fst (for_each names
             (fun markerName =>
                addMarker host_name taken (0, 0, 0)%Q markerName COLOR)
             objs0) in
    firstn (List.length objs0) objs = objs0
    /\ exists o : marker_object,
         nth_error objs (List.length objs0 + i) = Some o
         /\ ob_name o
            = host_name
                (taken ++ map ob_name (firstn (List.length objs0 + i) objs))%list
                m
         /\ ob_location o = (0, 0, 0)%Q
         /\ ob_color o = COLOR
         /\ ob_radius o = RADIUS
         /\ ob_keyframes o = [].
Proof.
  induction names as [|n names IH]; intros objs0 i m Hi; [now destruct i|].
  set (sphere := mkObject (host_name (taken ++ map ob_name objs0)%list n)
                   (0, 0, 0)%Q COLOR RADIUS []).
  destruct (create_markers_run host_name taken names (objs0 ++ [sphere])%list)
    as (created & Hrun & _).
  rewrite <- app_assoc in Hrun. cbn [app] in Hrun.
  assert (E : for_each (n :: names)
                (fun markerName =>
                   addMarker host_name taken (0, 0, 0)%Q markerName COLOR)
                objs0
              = ((objs0 ++ sphere :: created)%list, Ok tt)).
  { cbn [for_each]. unfold bind. unfold addMarker at 1. cbv beta iota zeta.
    fold sphere. exact Hrun. }
  cbv zeta. rewrite E. cbn [fst].
  split.
  - rewrite firstn_app, Nat.sub_diag, firstn_all.
    cbn [firstn]. now rewrite app_nil_r.
  - destruct i as [|i].
    + injection Hi as <-. exists sphere. rewrite Nat.add_0_r.
      rewrite nth_error_app2, Nat.sub_diag by lia.
      rewrite firstn_app, Nat.sub_diag, firstn_all. cbn [firstn nth_error].
      rewrite app_nil_r. repeat split.
    + cbn [nth_error] in Hi.
      pose proof (IH (objs0 ++ [sphere])%list i m Hi) as H.
      cbv zeta in H. rewrite Hrun in H. cbn [fst] in H.
      destruct H as (_ & o & Hn & Hname & Hrest).
      rewrite length_app in Hn, Hname. cbn [List.length] in Hn, Hname.
      replace (List.length objs0 + 1 + i)%nat
        with (List.length objs0 + S i)%nat in Hn, Hname by lia.
      exists o. split; [exact Hn|]. split; [exact Hname | exact Hrest].
Qed.

(** X17.  The markers lines 136-137 create, in a collection that starts
    empty: one per trajectory name, in the order of the names; the one at
    position [i] is at the origin, green, of radius 12/1000 and without a
    keyframe, and its name is the one the host gives to the [i]-th
    trajectory name when the names in use are those of the scene and of the
    markers created before it. *)
Theorem created_markers_spec :
  forall (host_name : list string -> string -> string)
         (taken names : list string) (i : nat) (m : string),
    nth_error names i = Some m ->
    let created := created_markers host_name taken names in
    List.length created = List.length names
    /\ exists o : marker_object,
         nth_error created i = Some o
         /\ ob_name o
            = host_name (taken ++ map ob_name (firstn i created))%list m
         /\ ob_location o = (0, 0, 0)%Q
         /\ ob_color o = COLOR
         /\ ob_radius o = RADIUS
         /\ ob_keyframes o = [].
Proof.
  intros host_name taken names i m Hi created.
  split; [exact (proj1 (created_markers_fresh host_name taken names))|].
  exact (proj2 (create_loop_nth host_name taken names [] i m Hi)).
Qed.

Lemma created_markers_spec_witness :
  exists o : marker_object,
    nth_error (created_markers Demo.host_name ["B"] ["A"; "B"; "A"]) 2 = Some o
    /\ ob_name o
       = Demo.host_name
           (["B"] ++ map ob_name
                       (firstn 2 (created_markers Demo.host_name ["B"]
                                    ["A"; "B"; "A"])))%list
           "A".
Proof.
  destruct (created_markers_spec Demo.host_name ["B"] ["A"; "B"; "A"] 2 "A"
              eq_refl)
    as (_ & o & Hn & Hname & _).
  exists o. split; [exact Hn | exact Hname].
Defined.
